(** * MyMultiWorkerDataSource: a user minibatch source

    Shallow embedding of the class [MyMultiWorkerDataSource] of the notebook
    [Manual_How_to_create_user_minibatch_sources.ipynb] and of the text
    format it ingests, followed by the properties of batch production and
    of checkpointing.

    Python integers are [Z], lists are [list], the dictionary [self.data]
    is a [gmap Z], a checkpoint state is a [gmap string Z].  A text is a
    [string] whose characters are the code points 0 to 255.  A method that
    mutates [self] is a function from the object to a [result] that carries
    the object as the method left it; an exception carries it too. *)

From Stdlib Require Import ZArith Lia List Ascii String.
From stdpp Require Import base option list gmap strings sorting.

Local Open Scope Z_scope.

(** ** Python built-ins used by the class *)

Inductive exception : Type :=
| IndexError
| KeyError
| ValueError
| ZeroDivisionError.

(** [len(l)] *)
Definition len {A : Type} (l : list A) : Z := Z.of_nat (length l).

(** [l[i]] on a list: a negative index counts from the end, and an index
    outside [-len(l) .. len(l)-1] raises [IndexError] (here [None]). *)
Definition getitem {A : Type} (l : list A) (i : Z) : option A :=
  if 0 <=? i then l !! Z.to_nat i
  else if - len l <=? i then l !! Z.to_nat (len l + i)
  else None.

(** The characters [str.strip()] removes when it is given no argument:
    those for which [str.isspace()] holds, which below 256 are the code
    points 9 to 13, 28 to 32, 133 and 160. *)
Definition is_whitespace (c : ascii) : bool :=
  let n := nat_of_ascii c in
  ((9 <=? n)%nat && (n <=? 13)%nat) || ((28 <=? n)%nat && (n <=? 32)%nat)
  || (n =? 133)%nat || (n =? 160)%nat.

(** The characters [int()] passes over around a number: the same but for
    the code points 28 to 31, which it rejects. *)
Definition is_int_whitespace (c : ascii) : bool :=
  let n := nat_of_ascii c in
  ((9 <=? n)%nat && (n <=? 13)%nat) || (n =? 32)%nat
  || (n =? 133)%nat || (n =? 160)%nat.

Fixpoint lstrip_of (space : ascii -> bool) (s : string) : string :=
  match s with
  | String c s' => if space c then lstrip_of space s' else s
  | EmptyString => EmptyString
  end.

Fixpoint rstrip_of (space : ascii -> bool) (s : string) : string :=
  match s with
  | String c s' =>
      match rstrip_of space s' with
      | EmptyString => if space c then EmptyString else String c EmptyString
      | r => String c r
      end
  | EmptyString => EmptyString
  end.

Definition lstrip (s : string) : string := lstrip_of is_whitespace s.

Definition rstrip (s : string) : string := rstrip_of is_whitespace s.

(** [s.strip()] *)
Definition strip (s : string) : string := rstrip (lstrip s).

(** [s.split(sep)] for a one-character separator: every occurrence cuts,
    empty pieces are kept. *)
Fixpoint split (sep : ascii) (s : string) : list string :=
  match s with
  | EmptyString => [EmptyString]
  | String c s' =>
      if Ascii.eqb c sep then EmptyString :: split sep s'
      else match split sep s' with
           | w :: ws => String c w :: ws
           | [] => [String c EmptyString]
           end
  end.

(** [s.split(sep, 1)]: only the first occurrence cuts. *)
Fixpoint split1 (sep : ascii) (s : string) : list string :=
  match s with
  | EmptyString => [EmptyString]
  | String c s' =>
      if Ascii.eqb c sep then [EmptyString; s']
      else match split1 sep s' with
           | w :: ws => String c w :: ws
           | [] => [String c EmptyString]
           end
  end.

Definition digit_value (c : ascii) : option Z :=
  let n := nat_of_ascii c in
  if ((48 <=? n)%nat && (n <=? 57)%nat)%bool then Some (Z.of_nat (n - 48)) else None.

(** The digits of an integer literal, most significant first, with the
    value read so far.  A single underscore is accepted between two
    digits, as [int()] accepts it. *)
Fixpoint int_digits (acc : Z) (after_digit : bool) (s : string) : option Z :=
  match s with
  | EmptyString => if after_digit then Some acc else None
  | String c s' =>
      match digit_value c with
      | Some d => int_digits (10 * acc + d) true s'
      | None =>
          if (Ascii.eqb c "_" && after_digit)%bool then
            match s' with
            | String c' _ =>
                if is_Some_dec (digit_value c') then int_digits acc false s' else None
            | EmptyString => None
            end
          else None
      end
  end.

(** [int(s)] on a string: the whitespace [int()] knows is dropped at both
    ends, one sign is accepted, then decimal digits, which below 256 are
    the ASCII ones; anything else raises [ValueError] (here [None]). *)
Definition int (s : string) : option Z :=
  match rstrip_of is_int_whitespace (lstrip_of is_int_whitespace s) with
  | String "-" ds => Z.opp <$> int_digits 0 false ds
  | String "+" ds => int_digits 0 false ds
  | ds => int_digits 0 false ds
  end.

(** [sorted(d)] on a dictionary with integer keys: its keys, ascending. *)
Definition sorted {V : Type} (d : gmap Z V) : list Z :=
  merge_sort Z.le (elements (dom d)).

(** ** The data model *)

(** [cntk.io.StreamInformation(name, stream_id, storage_format, dtype, shape)] *)
Inductive dtype : Type := np_float32.

Record StreamInformation : Type := {
  si_name : string;
  si_stream_id : Z;
  si_storage_format : string;
  si_dtype : dtype;
  si_shape : list Z
}.

Section Model.

(** The values of [numpy.float32] and the conversion of one text token,
    both of the numpy library: [None] stands for its [ValueError]. *)
Context {float32 : Type}.
Variable to_float32 : string -> option float32.

(** A two-dimensional [numpy] array, as its rows: [len] of it is the
    number of rows. *)
Definition ndarray : Type := list (list float32).

(** One value of [self.data]: the dictionary [{'features': [...]}], with
    the key ['labels'] present or not. *)
Record seq_data : Type := {
  seq_features : list Z;
  seq_labels : option ndarray
}.

Record MyMultiWorkerDataSource : Type := {
  f_dim : Z;
  l_dim : Z;
  data : gmap Z seq_data;
  fsi : StreamInformation;
  lsi : StreamInformation;
  sequences : list Z;
  next_seq_idx : Z
}.

Definition set_next_seq_idx (i : Z) (self : MyMultiWorkerDataSource)
  : MyMultiWorkerDataSource :=
  {| f_dim := f_dim self; l_dim := l_dim self; data := data self;
     fsi := fsi self; lsi := lsi self; sequences := sequences self;
     next_seq_idx := i |}.

(** ** Ingestion: [_prepare_data] *)

(** [np.asarray([tokens], dtype=np.float32)]: one row, every token
    converted. *)
Definition asarray_row (tokens : list string) : option ndarray :=
  row ← mapM to_float32 tokens; Some [row].

(** The body of the [for line in ...] loop, on the dictionary built so
    far.  [inl e] is the exception that aborts the construction. *)
Definition prepare_line (d : gmap Z seq_data) (line : string)
  : exception + gmap Z seq_data :=
  let line := strip line in
  if String.eqb line EmptyString then inr d
  else
    match split1 "|" line with
    | [seq_id; rest] =>
        let fields := split "|" rest in
        match int (strip seq_id) with
        | None => inl ValueError
        | Some seq_id =>
            let d :=
              match d !! seq_id with
              | Some _ => d
              | None => <[seq_id := {| seq_features := []; seq_labels := None |}]> d
              end in
            match getitem (split " " (default EmptyString (getitem fields 0))) 1 with
            | None => inl IndexError
            | Some feature =>
                match int (default EmptyString (getitem (split ":" feature) 0)) with
                | None => inl ValueError
                | Some vocab_idx =>
                    let d :=
                      alter (fun e => {| seq_features := seq_features e ++ [vocab_idx];
                                         seq_labels := seq_labels e |}) seq_id d in
                    if len fields =? 2 then
                      match asarray_row (tail (split " " (default EmptyString (getitem fields 1)))) with
                      | None => inl ValueError
                      | Some labels =>
                          inr (alter (fun e => {| seq_features := seq_features e;
                                                  seq_labels := Some labels |}) seq_id d)
                      end
                    else inr d
                end
            end
        end
    | _ => inl ValueError
    end.

Fixpoint prepare_lines (d : gmap Z seq_data) (lines : list string)
  : exception + gmap Z seq_data :=
  match lines with
  | [] => inr d
  | line :: lines' =>
      match prepare_line d line with
      | inl e => inl e
      | inr d' => prepare_lines d' lines'
      end
  end.

(** [_prepare_data], with the module-level text [sample_data] as an
    argument: the value given to [self.data]. *)
Definition _prepare_data (sample_data : string) : exception + gmap Z seq_data :=
  prepare_lines ∅ (split "010" sample_data).

(** [__init__(self, f_dim, l_dim)] *)
Definition __init__ (sample_data : string) (f_dim l_dim : Z)
  : exception + MyMultiWorkerDataSource :=
  match _prepare_data sample_data with
  | inl e => inl e
  | inr d =>
      inr {| f_dim := f_dim; l_dim := l_dim; data := d;
             fsi := {| si_name := "features"; si_stream_id := 0;
                       si_storage_format := "sparse"; si_dtype := np_float32;
                       si_shape := [f_dim] |};
             lsi := {| si_name := "labels"; si_stream_id := 1;
                       si_storage_format := "dense"; si_dtype := np_float32;
                       si_shape := [l_dim] |};
             sequences := sorted d;
             next_seq_idx := 0 |}
  end.

(** ** Methods that mutate [self] *)

(** How a method call ends: it returns a value, raises an exception, or is
    still running when the iteration budget of the model is used up.  Each
    case carries the object as the call left it. *)
Inductive result (A : Type) : Type :=
| Returns (a : A) (self : MyMultiWorkerDataSource)
| Raises (e : exception) (self : MyMultiWorkerDataSource)
| OutOfFuel (self : MyMultiWorkerDataSource).

Arguments Returns {A} a self.
Arguments Raises {A} e self.
Arguments OutOfFuel {A} self.

Definition method (A : Type) : Type := MyMultiWorkerDataSource -> result A.

Definition ret {A : Type} (a : A) : method A := fun self => Returns a self.

Definition bind {A B : Type} (m : method A) (k : A -> method B) : method B :=
  fun self =>
    match m self with
    | Returns a self' => k a self'
    | Raises e self' => Raises e self'
    | OutOfFuel self' => OutOfFuel self'
    end.

Definition raise {A : Type} (e : exception) : method A := fun self => Raises e self.

(** Read an attribute of [self]. *)
Definition attr {A : Type} (f : MyMultiWorkerDataSource -> A) : method A :=
  fun self => Returns (f self) self.

(** [self.next_seq_idx = i] *)
Definition assign_next_seq_idx (i : Z) : method unit :=
  fun self => Returns tt (set_next_seq_idx i self).

(** A lookup that raises [e] when there is nothing to find. *)
Definition or_raise {A : Type} (e : exception) (o : option A) : method A :=
  match o with
  | Some a => ret a
  | None => raise e
  end.

(** The object a call leaves behind. *)
Definition final_self {A : Type} (r : result A) : MyMultiWorkerDataSource :=
  match r with
  | Returns _ self | Raises _ self | OutOfFuel self => self
  end.

Local Notation "'do' x <- m ; k" := (bind m (fun x => k))
  (at level 10, x name, m at level 100, k at level 200,
   format "'[v' 'do'  x  <-  m ; '/' k ']'").

(** ** Batch production: [_prepare_nextbatch] *)

(** The local variables of [_prepare_nextbatch]. *)
Record locals : Type := {
  features : list (list Z);
  labels : list ndarray;
  sweep_end : bool;
  f_sample_count : Z;
  l_sample_count : Z
}.

Definition initial_locals : locals :=
  {| features := []; labels := []; sweep_end := false;
     f_sample_count := 0; l_sample_count := 0 |}.

(** How one run of the loop body ends: [Continue] goes back to the test of
    the [while] (the [continue] statement and the end of the body alike),
    [Break] leaves the loop. *)
Inductive flow : Type := Continue | Break.

(** [a % b] on integers. *)
Definition py_mod (a b : Z) : option Z :=
  if b =? 0 then None else Some (a mod b).

(** Truth value of a list: non-empty. *)
Definition truthy {A : Type} (l : list A) : bool :=
  match l with [] => false | _ :: _ => true end.

(** The test of the [while]. *)
Definition loop_test (num_samples : Z) (v : locals) : bool :=
  Z.max (f_sample_count v) (l_sample_count v) <? num_samples.

(** The first statement of the loop body: at the end of the list, flag the
    sweep and go back to the start. *)
Definition wrap_around (v : locals) : method locals :=
  do idx <- attr next_seq_idx;
  do seqs <- attr sequences;
  if idx =? len seqs then
    do _ <- assign_next_seq_idx 0;
    ret {| features := features v; labels := labels v; sweep_end := true;
           f_sample_count := f_sample_count v;
           l_sample_count := l_sample_count v |}
  else ret v.

(** [self.sequences[self.sequences[self.next_seq_idx]]] *)
Definition select_seq_id : method Z :=
  do idx <- attr next_seq_idx;
  do seqs <- attr sequences;
  do i <- or_raise IndexError (getitem seqs idx);
  or_raise IndexError (getitem seqs i).

(** The body of the [while]. *)
Definition loop_body (num_samples number_of_workers worker_rank : Z) (v : locals)
  : method (flow * locals) :=
  do v <- wrap_around v;
  do seq_id <- select_seq_id;
  do r <- or_raise ZeroDivisionError (py_mod seq_id number_of_workers);
  if negb (r =? worker_rank) then ret (Continue, v)
  else
    do d <- attr data;
    do entry <- or_raise KeyError (d !! seq_id);
    let feature_data := seq_features entry in
    do label_data <- or_raise KeyError (seq_labels entry);
    if (truthy (features v) || truthy (labels v))
       && (Z.max (f_sample_count v + len feature_data)
                 (l_sample_count v + len label_data) >? num_samples)
    then ret (Break, v)
    else
      do idx <- attr next_seq_idx;
      do _ <- assign_next_seq_idx (idx + 1);
      ret (Continue,
           {| features := features v ++ [feature_data];
              labels := labels v ++ [label_data];
              sweep_end := sweep_end v;
              f_sample_count := f_sample_count v + len feature_data;
              l_sample_count := l_sample_count v + len label_data |}).

(** The [while] loop, run for at most [fuel] rounds of its body. *)
Fixpoint while_loop (fuel : nat) (num_samples number_of_workers worker_rank : Z)
  (v : locals) : method locals :=
  if loop_test num_samples v then
    match fuel with
    | O => fun self => OutOfFuel self
    | S fuel' =>
        do r <- loop_body num_samples number_of_workers worker_rank v;
        match r with
        | (Break, v') => ret v'
        | (Continue, v') =>
            while_loop fuel' num_samples number_of_workers worker_rank v'
        end
    end
  else ret v.

(** [_prepare_nextbatch(self, num_samples, number_of_workers, worker_rank)];
    the tuple it returns is the final [locals]. *)
Definition _prepare_nextbatch (fuel : nat)
  (num_samples number_of_workers worker_rank : Z) : method locals :=
  while_loop fuel num_samples number_of_workers worker_rank initial_locals.

(** ** The public methods *)

(** [stream_infos(self)] *)
Definition stream_infos : method (list StreamInformation) :=
  do a <- attr fsi; do b <- attr lsi; ret [a; b].

(** A [cntk.Value], by the constructor call that makes it: the toolkit's
    encoding of the batch is not part of this class. *)
Inductive Value : Type :=
| Value_one_hot (batch : list (list Z)) (num_classes : Z)
| Value_dense (batch : list ndarray).

(** The shape of an array given by its rows: the width of each row. *)
Definition shape (a : ndarray) : list nat := length <$> a.

(** [np.asarray(arrays, dtype=np.float32)] on a list of arrays: arrays of
    one shape are stacked, here kept as the list of them; arrays of
    different shapes raise [ValueError] (here [None]). *)
Definition asarray_stack (arrays : list ndarray) : option (list ndarray) :=
  match arrays with
  | [] => Some []
  | a :: rest =>
      if forallb (fun b => bool_decide (shape b = shape a)) rest
      then Some arrays else None
  end.

(** [cntk.io.MinibatchData(value, num_sequences, num_samples, sweep_end)] *)
Record MinibatchData : Type := {
  md_value : Value;
  md_num_sequences : Z;
  md_num_samples : Z;
  md_sweep_end : bool
}.

(** [next_minibatch(self, num_samples, number_of_workers, worker_rank, device)].
    The dictionary returned has the two keys [self.fsi] and [self.lsi]: it
    is the pair of its values, in this order.  [device] only goes to the
    toolkit's constructors and is left out.  The label arrays are stacked
    by numpy before they go to the toolkit, which raises when they differ
    in shape. *)
Definition next_minibatch (fuel : nat)
  (num_samples number_of_workers worker_rank : Z)
  : method (MinibatchData * MinibatchData) :=
  do v <- _prepare_nextbatch fuel num_samples number_of_workers worker_rank;
  do num_classes <- attr f_dim;
  let feature_data := Value_one_hot (features v) num_classes in
  do stacked <- or_raise ValueError (asarray_stack (labels v));
  let label_data := Value_dense stacked in
  let num_seq := len (features v) in
  ret ({| md_value := feature_data; md_num_sequences := num_seq;
          md_num_samples := f_sample_count v; md_sweep_end := sweep_end v |},
       {| md_value := label_data; md_num_sequences := num_seq;
          md_num_samples := l_sample_count v; md_sweep_end := sweep_end v |}).

(** [get_checkpoint_state(self)] *)
Definition get_checkpoint_state : method (gmap string Z) :=
  do idx <- attr next_seq_idx;
  ret {[ "next_seq_idx"%string := idx ]}.

(** [restore_from_checkpoint(self, state)] *)
Definition restore_from_checkpoint (state : gmap string Z) : method unit :=
  do idx <- or_raise KeyError (state !! "next_seq_idx"%string);
  assign_next_seq_idx idx.

End Model.

Arguments ndarray : clear implicits.
Arguments seq_data : clear implicits.
Arguments MyMultiWorkerDataSource : clear implicits.
Arguments result : clear implicits.
Arguments method : clear implicits.
Arguments locals : clear implicits.
Arguments Value : clear implicits.
Arguments MinibatchData : clear implicits.
Arguments Returns {float32 A} a self.
Arguments Raises {float32 A} e self.
Arguments OutOfFuel {float32 A} self.

(** ** Notions used in the statements *)

(** The call was still in its loop when the iteration budget ran out. *)
Definition still_running {float32 A : Type} (r : result float32 A) : Prop :=
  match r with
  | OutOfFuel _ => True
  | _ => False
  end.

(** The sequences of a batch, as the feature lists handed to [one_hot]. *)
Definition batch_features {float32 : Type}
  (b : MinibatchData float32 * MinibatchData float32) : list (list Z) :=
  match md_value (fst b) with
  | Value_one_hot batch _ => batch
  | Value_dense _ => []
  end.

(** The label arrays of a batch. *)
Definition batch_labels {float32 : Type}
  (b : MinibatchData float32 * MinibatchData float32) : list (ndarray float32) :=
  match md_value (snd b) with
  | Value_dense batch => batch
  | Value_one_hot _ _ => []
  end.

(** The training loop of one worker, up to the end of a sweep: call
    [next_minibatch] until a batch comes back with its sweep flag set, at
    most [calls] times, and return the batches in the order received. *)
Fixpoint until_sweep_end {float32 : Type} (calls fuel : nat)
  (num_samples number_of_workers worker_rank : Z)
  : method float32 (list (MinibatchData float32 * MinibatchData float32)) :=
  match calls with
  | O => fun self => OutOfFuel self
  | S calls' =>
      bind (next_minibatch fuel num_samples number_of_workers worker_rank)
        (fun b =>
           if md_sweep_end (fst b) then ret [b]
           else bind (until_sweep_end calls' fuel num_samples
                        number_of_workers worker_rank)
                  (fun bs => ret (b :: bs)))
  end.

(** The position a round of the loop looks at: the cursor, or 0 when the
    cursor stands at the end of the list. *)
Definition examined {float32 : Type} (self : MyMultiWorkerDataSource float32) : Z :=
  if next_seq_idx self =? len (sequences self) then 0 else next_seq_idx self.

(** The locals after the first statement of a round: the sweep flag is set
    when the cursor stood at the end of the list. *)
Definition wrapped {float32 : Type} (v : locals float32)
  (self : MyMultiWorkerDataSource float32) : locals float32 :=
  {| features := features v; labels := labels v;
     sweep_end := sweep_end v || (next_seq_idx self =? len (sequences self));
     f_sample_count := f_sample_count v;
     l_sample_count := l_sample_count v |}.

(** The locals after a sequence has been added to the batch. *)
Definition taken {float32 : Type} (v : locals float32)
  (feature_data : list Z) (label_data : ndarray float32) : locals float32 :=
  {| features := features v ++ [feature_data];
     labels := labels v ++ [label_data];
     sweep_end := sweep_end v;
     f_sample_count := f_sample_count v + len feature_data;
     l_sample_count := l_sample_count v + len label_data |}.

(** The two counts are the numbers of samples in the two lists, which have
    one item per sequence each. *)
Definition counted {float32 : Type} (v : locals float32) : Prop :=
  length (features v) = length (labels v) /\
  f_sample_count v = len (concat (features v)) /\
  l_sample_count v = len (concat (labels v)).

(** What ingestion leaves in an entry of [self.data]: at least one
    feature, and a label array, when there is one, of exactly one row. *)
Definition ingested {float32 : Type} (entry : seq_data float32) : Prop :=
  seq_features entry <> [] /\
  forall label_data, seq_labels entry = Some label_data -> len label_data = 1.

(** The feature list stored for a sequence identifier. *)
Definition features_of {float32 : Type} (self : MyMultiWorkerDataSource float32)
  (seq_id : Z) : list Z :=
  from_option seq_features [] (data self !! seq_id).

(** The label array stored for a sequence identifier. *)
Definition label_array_of {float32 : Type} (self : MyMultiWorkerDataSource float32)
  (seq_id : Z) : ndarray float32 :=
  default [] (data self !! seq_id ≫= seq_labels).

(** The [k] positions visited from position [c0] on when the list
    [0 .. n-1] is walked round and round. *)
Definition walked (n c0 : Z) (k : nat) : list Z :=
  (fun j => (c0 + j) mod n) <$> seqZ 0 (Z.of_nat k).

(** The first [m] identifiers of the list [0 .. n-1] repeated end to end. *)
Definition cyclic (n : Z) (m : nat) : list Z := walked n 0 m.

(** Only the cursor separates the two objects. *)
Definition cursor_only {float32 : Type}
  (self self' : MyMultiWorkerDataSource float32) : Prop :=
  self' = set_next_seq_idx (next_seq_idx self') self.

(** A method keeps everything but the cursor, however it ends. *)
Definition keeps_frame {float32 A : Type} (m : method float32 A) : Prop :=
  forall self, cursor_only self (final_self (m self)).

(** The state of the walk over the identifiers [0 .. n-1] of [base] during
    a call of one worker that started at the cursor [c0]: the batch holds
    the sequences at the positions walked so far, and the cursor [c] and
    the sweep flag say how far the walk went. *)
Definition walk_inv {float32 : Type} (n : Z) (base : MyMultiWorkerDataSource float32)
  (c0 : Z) (v : locals float32) (c : Z) : Prop :=
  counted v /\
  features v = features_of base <$> walked n c0 (length (features v)) /\
  0 <= c <= n /\
  (sweep_end v = false -> c = c0 + len (features v)) /\
  (sweep_end v = true ->
   n <= c0 + len (features v) /\ c mod n = (c0 + len (features v)) mod n).

(** The labels of the batch during that walk: the label arrays of the
    sequences at the positions walked so far. *)
Definition labels_walked {float32 : Type} (n : Z)
  (base : MyMultiWorkerDataSource float32) (c0 : Z) (v : locals float32) : Prop :=
  labels v = label_array_of base <$> walked n c0 (length (features v)).

(** The ways a round of the loop can end, read off the body statement by
    statement: the two lookups in [self.sequences], the modulo, the lookups
    in [self.data], the test against [num_samples]. *)
Inductive round_outcome {float32 : Type} (num_samples number_of_workers worker_rank : Z)
  (v : locals float32) (self : MyMultiWorkerDataSource float32)
  : result float32 (flow * locals float32) -> Prop :=
| round_no_position :
    getitem (sequences self) (examined self) = None ->
    round_outcome num_samples number_of_workers worker_rank v self
      (Raises IndexError (set_next_seq_idx (examined self) self))
| round_no_sequence (i : Z) :
    getitem (sequences self) (examined self) = Some i ->
    getitem (sequences self) i = None ->
    round_outcome num_samples number_of_workers worker_rank v self
      (Raises IndexError (set_next_seq_idx (examined self) self))
| round_no_workers (i seq_id : Z) :
    getitem (sequences self) (examined self) = Some i ->
    getitem (sequences self) i = Some seq_id ->
    number_of_workers = 0 ->
    round_outcome num_samples number_of_workers worker_rank v self
      (Raises ZeroDivisionError (set_next_seq_idx (examined self) self))
| round_skip (i seq_id : Z) :
    getitem (sequences self) (examined self) = Some i ->
    getitem (sequences self) i = Some seq_id ->
    number_of_workers <> 0 -> seq_id mod number_of_workers <> worker_rank ->
    round_outcome num_samples number_of_workers worker_rank v self
      (Returns (Continue, wrapped v self) (set_next_seq_idx (examined self) self))
| round_no_entry (i seq_id : Z) :
    getitem (sequences self) (examined self) = Some i ->
    getitem (sequences self) i = Some seq_id ->
    number_of_workers <> 0 -> seq_id mod number_of_workers = worker_rank ->
    data self !! seq_id = None ->
    round_outcome num_samples number_of_workers worker_rank v self
      (Raises KeyError (set_next_seq_idx (examined self) self))
| round_no_labels (i seq_id : Z) (entry : seq_data float32) :
    getitem (sequences self) (examined self) = Some i ->
    getitem (sequences self) i = Some seq_id ->
    number_of_workers <> 0 -> seq_id mod number_of_workers = worker_rank ->
    data self !! seq_id = Some entry -> seq_labels entry = None ->
    round_outcome num_samples number_of_workers worker_rank v self
      (Raises KeyError (set_next_seq_idx (examined self) self))
| round_break (i seq_id : Z) (entry : seq_data float32) (label_data : ndarray float32) :
    getitem (sequences self) (examined self) = Some i ->
    getitem (sequences self) i = Some seq_id ->
    number_of_workers <> 0 -> seq_id mod number_of_workers = worker_rank ->
    data self !! seq_id = Some entry -> seq_labels entry = Some label_data ->
    features v <> [] \/ labels v <> [] ->
    num_samples < f_sample_count v + len (seq_features entry) \/
    num_samples < l_sample_count v + len label_data ->
    round_outcome num_samples number_of_workers worker_rank v self
      (Returns (Break, wrapped v self) (set_next_seq_idx (examined self) self))
| round_take (i seq_id : Z) (entry : seq_data float32) (label_data : ndarray float32) :
    getitem (sequences self) (examined self) = Some i ->
    getitem (sequences self) i = Some seq_id ->
    number_of_workers <> 0 -> seq_id mod number_of_workers = worker_rank ->
    data self !! seq_id = Some entry -> seq_labels entry = Some label_data ->
    (features v = [] /\ labels v = []) \/
    (f_sample_count v + len (seq_features entry) <= num_samples /\
     l_sample_count v + len label_data <= num_samples) ->
    round_outcome num_samples number_of_workers worker_rank v self
      (Returns (Continue, taken (wrapped v self) (seq_features entry) label_data)
         (set_next_seq_idx (examined self + 1) self)).

(** The batch of a call, as the tuple [_prepare_nextbatch] returned. *)
Definition batch_of {float32 : Type} (self : MyMultiWorkerDataSource float32)
  (v : locals float32) : MinibatchData float32 * MinibatchData float32 :=
  ({| md_value := Value_one_hot (features v) (f_dim self);
      md_num_sequences := len (features v);
      md_num_samples := f_sample_count v; md_sweep_end := sweep_end v |},
   {| md_value := Value_dense (labels v);
      md_num_sequences := len (features v);
      md_num_samples := l_sample_count v; md_sweep_end := sweep_end v |}).

(** The cursor is a position of the list or its end. *)
Definition cursor_in_range {float32 : Type} (self : MyMultiWorkerDataSource float32)
  : Prop :=
  0 <= next_seq_idx self <= len (sequences self).

(** The character [c] occurs in [s]. *)
Fixpoint occurs (c : ascii) (s : string) : bool :=
  match s with
  | EmptyString => false
  | String c' s' => Ascii.eqb c' c || occurs c s'
  end.

(** A line that [_prepare_data] passes over: nothing but whitespace. *)
Definition blank (line : string) : bool := String.eqb (strip line) EmptyString.

(** What one non-blank line holds, by the expressions of the loop body of
    [_prepare_data] in the order they are evaluated: the sequence
    identifier, the vocabulary index, and the label array when the line has
    exactly two fields after the identifier. *)
Definition parse_line {float32 : Type} (to_float32 : string -> option float32)
  (line : string) : exception + (Z * Z * option (ndarray float32)) :=
  match split1 "|" (strip line) with
  | [seq_id; rest] =>
      let fields := split "|" rest in
      match int (strip seq_id) with
      | None => inl ValueError
      | Some seq_id =>
          match getitem (split " " (default EmptyString (getitem fields 0))) 1 with
          | None => inl IndexError
          | Some feature =>
              match int (default EmptyString (getitem (split ":" feature) 0)) with
              | None => inl ValueError
              | Some vocab_idx =>
                  if len fields =? 2 then
                    match asarray_row to_float32
                            (tail (split " " (default EmptyString (getitem fields 1)))) with
                    | None => inl ValueError
                    | Some labels => inr (seq_id, vocab_idx, Some labels)
                    end
                  else inr (seq_id, vocab_idx, None)
              end
          end
      end
  | _ => inl ValueError
  end.

(** The non-blank lines of a list, parsed in order up to the first that
    raises. *)
Fixpoint parse_lines {float32 : Type} (to_float32 : string -> option float32)
  (ls : list string) : exception + list (Z * Z * option (ndarray float32)) :=
  match ls with
  | [] => inr []
  | line :: ls' =>
      if blank line then parse_lines to_float32 ls'
      else
        match parse_line to_float32 line with
        | inl e => inl e
        | inr item =>
            match parse_lines to_float32 ls' with
            | inl e => inl e
            | inr items => inr (item :: items)
            end
        end
  end.

(** The vocabulary indices of the lines of sequence [seq_id], in order. *)
Definition vocab_of {float32 : Type} (seq_id : Z)
  (items : list (Z * Z * option (ndarray float32))) : list Z :=
  omap (fun item => if decide (item.1.1 = seq_id) then Some item.1.2 else None) items.

(** The label arrays of the lines of sequence [seq_id] that have one, in
    order. *)
Definition labels_of {float32 : Type} (seq_id : Z)
  (items : list (Z * Z * option (ndarray float32))) : list (ndarray float32) :=
  omap (fun item => if decide (item.1.1 = seq_id) then item.2 else None) items.

(** The entry that the lines [items] make for [seq_id], starting from the
    entry [before] when there is one. *)
Definition entry_of {float32 : Type} (seq_id : Z)
  (items : list (Z * Z * option (ndarray float32)))
  (before : option (seq_data float32)) : option (seq_data float32) :=
  if decide (vocab_of seq_id items = []) then before
  else Some {| seq_features :=
                 from_option seq_features [] before ++ vocab_of seq_id items;
               seq_labels :=
                 match last (labels_of seq_id items) with
                 | Some labels => Some labels
                 | None => before ≫= seq_labels
                 end |}.

(** A training loop of one process: one call of [next_minibatch] per
    request, in order, each asking for its own number of samples; the
    batches come back in the order received. *)
Fixpoint serve {float32 : Type} (fuel : nat) (requests : list Z)
  (number_of_workers worker_rank : Z)
  : method float32 (list (MinibatchData float32 * MinibatchData float32)) :=
  match requests with
  | [] => ret []
  | num_samples :: rest =>
      bind (next_minibatch fuel num_samples number_of_workers worker_rank)
        (fun b =>
           bind (serve fuel rest number_of_workers worker_rank)
             (fun bs => ret (b :: bs)))
  end.

(** ** The generator [frange] of the ranges notebook *)

(** [frange(start, stop, step)] called with three integers: the values the
    generator yields in at most [fuel] rounds of its loop, and whether the
    loop test has failed by then, which ends the generator. *)
Fixpoint frange (fuel : nat) (start stop step : Z) : list Z * bool :=
  if start <? stop then
    match fuel with
    | O => ([], false)
    | S fuel' =>
        let rest := frange fuel' (start + step) stop step in
        (start :: rest.1, rest.2)
    end
  else ([], true).

(** The number of multiples of [step] from [start] on that lie below
    [stop]. *)
Definition steps_below (start stop step : Z) : Z :=
  Z.max 0 ((stop - start + step - 1) / step).

(** ** The example of the notebook *)

(** The conversion to [float32] on the tokens that are integer literals of
    magnitude at most [2^24], which [float32] holds exactly.  It serves the
    closed examples below, whose label tokens are all of this kind. *)
Definition small_int_float32 (s : string) : option Z :=
  v ← int s; if Z.abs v <=? 2 ^ 24 then Some v else None.

Definition lines (ls : list string) : string :=
  fold_right (fun l s => l +:+ String "010" s) EmptyString ls.

(** The text [sample_data] of the notebook. *)
Definition sample_data : string := lines [
  "0      |x 560:1        |y 1 0 0 0 0";
  "0   |x 0:1";
  "0   |x 0:1";
  "1   |x 560:1        |y 0 1 0 0 0";
  "1   |x 0:1";
  "1   |x 0:1";
  "1   |x 424:1";
  "2   |x 160:1        |y 0 0 1 0 0";
  "2   |x 5:1";
  "2   |x 6:1";
  "3   |x 460:1        |y 0 0 0 1 0";
  "3   |x 3:1";
  "3   |x 3:1";
  "3   |x 425:1" ]%string.

(** The object constructed on a text; an empty source stands in should the
    construction raise. *)
Definition build (text : string) (f_dim l_dim : Z) : MyMultiWorkerDataSource Z :=
  match __init__ small_int_float32 text f_dim l_dim with
  | inr self => self
  | inl _ =>
      {| f_dim := f_dim; l_dim := l_dim; data := ∅;
         fsi := {| si_name := ""; si_stream_id := 0; si_storage_format := "";
                   si_dtype := np_float32; si_shape := [] |};
         lsi := {| si_name := ""; si_stream_id := 0; si_storage_format := "";
                   si_dtype := np_float32; si_shape := [] |};
         sequences := []; next_seq_idx := 0 |}
  end.

(** [mbs = MyMultiWorkerDataSource(input_dim, num_output_classes)] with
    [input_dim = 1000] and [num_output_classes = 5]. *)
Definition mbs : MyMultiWorkerDataSource Z := build sample_data 1000 5.

(** A text with an identifier beyond the number of sequences, one whose
    identifiers start at 1, and one whose second sequence has no label. *)
Definition lone_five : MyMultiWorkerDataSource Z :=
  build (lines ["5 |x 1:1 |y 1 0"]%string) 10 2.

Definition one_two : MyMultiWorkerDataSource Z :=
  build (lines ["1 |x 1:1 |y 1 0"; "2 |x 2:1 |y 0 1"]%string) 10 2.

Definition unlabelled_second : MyMultiWorkerDataSource Z :=
  build (lines ["0 |x 1:1 |y 1 0"; "1 |x 2:1"]%string) 10 2.

(** A text whose two sequences have labels of different widths. *)
Definition uneven_labels : MyMultiWorkerDataSource Z :=
  build (lines ["0 |x 1:1 |y 1 0"; "1 |x 2:1 |y 1 0 0"]%string) 10 2.

(** * Properties *)

Section Properties.

Context {float32 : Type}.

Local Abbreviation source := (MyMultiWorkerDataSource float32).

Implicit Types (self : source) (v : locals float32).

Local Notation "'do' x <- m ; k" := (bind m (fun x => k))
  (at level 10, x name, m at level 100, k at level 200,
   format "'[v' 'do'  x  <-  m ; '/' k ']'").

(** ** Basic facts *)

Lemma set_next_seq_idx_same self :
  set_next_seq_idx (next_seq_idx self) self = self.
Proof. by destruct self. Qed.

Lemma set_next_seq_idx_twice i j self :
  set_next_seq_idx i (set_next_seq_idx j self) = set_next_seq_idx i self.
Proof. reflexivity. Qed.

Lemma len_nonneg {A : Type} (l : list A) : 0 <= len l.
Proof. unfold len. lia. Qed.

Lemma len_app {A : Type} (l k : list A) : len (l ++ k) = len l + len k.
Proof. unfold len. rewrite length_app. lia. Qed.

Lemma len_pos {A : Type} (l : list A) : l <> [] -> 0 < len l.
Proof. destruct l; [done | unfold len; simpl; lia]. Qed.

Lemma cursor_only_refl self : cursor_only self self.
Proof. unfold cursor_only. by rewrite set_next_seq_idx_same. Qed.

Lemma cursor_only_trans (s1 s2 s3 : source) :
  cursor_only s1 s2 -> cursor_only s2 s3 -> cursor_only s1 s3.
Proof. unfold cursor_only. intros H12 H23. rewrite H23 at 1. by rewrite H12. Qed.

Lemma cursor_only_set i self : cursor_only self (set_next_seq_idx i self).
Proof. reflexivity. Qed.

Lemma keeps_frame_ret {A : Type} (a : A) : keeps_frame (float32:=float32) (ret a).
Proof. intros self. apply cursor_only_refl. Qed.

Lemma keeps_frame_raise {A : Type} e : keeps_frame (float32:=float32) (raise (A:=A) e).
Proof. intros self. apply cursor_only_refl. Qed.

Lemma keeps_frame_attr {A : Type} (f : source -> A) : keeps_frame (attr f).
Proof. intros self. apply cursor_only_refl. Qed.

Lemma keeps_frame_assign i : keeps_frame (float32:=float32) (assign_next_seq_idx i).
Proof. intros self. apply cursor_only_set. Qed.

Lemma keeps_frame_or_raise {A : Type} e (o : option A) :
  keeps_frame (float32:=float32) (or_raise e o).
Proof. destruct o; [apply keeps_frame_ret | apply keeps_frame_raise]. Qed.

Lemma keeps_frame_bind {A B : Type} (m : method float32 A)
  (k : A -> method float32 B) :
  keeps_frame m -> (forall a, keeps_frame (k a)) -> keeps_frame (bind m k).
Proof.
  intros Hm Hk self. unfold bind. specialize (Hm self).
  destruct (m self) as [a s'|e s'|s']; simpl in *; try done.
  eapply cursor_only_trans; [exact Hm | apply Hk].
Qed.

Create HintDb frame discriminated.
#[local] Hint Resolve keeps_frame_ret keeps_frame_raise keeps_frame_attr
  keeps_frame_assign keeps_frame_or_raise : frame.

Ltac frame_step :=
  repeat first
    [ apply keeps_frame_bind; [| intros ?]
    | match goal with |- keeps_frame (if ?b then _ else _) => destruct b end
    | solve [auto with frame] ].

Lemma keeps_frame_wrap_around v : keeps_frame (wrap_around v).
Proof. unfold wrap_around. frame_step. Qed.

Lemma keeps_frame_select : keeps_frame (float32:=float32) select_seq_id.
Proof. unfold select_seq_id. frame_step. Qed.

Lemma keeps_frame_loop_body num w r v : keeps_frame (loop_body num w r v).
Proof.
  unfold loop_body.
  apply keeps_frame_bind; [apply keeps_frame_wrap_around | intros v'].
  apply keeps_frame_bind; [apply keeps_frame_select | intros seq_id].
  frame_step.
Qed.

Lemma keeps_frame_while fuel num w r v : keeps_frame (while_loop fuel num w r v).
Proof.
  revert v. induction fuel as [|fuel IH]; intros v; simpl;
    destruct (loop_test num v); try apply keeps_frame_ret.
  - intros self. apply cursor_only_refl.
  - apply keeps_frame_bind; [apply keeps_frame_loop_body |].
    intros [[] v']; [apply IH | apply keeps_frame_ret].
Qed.

Lemma keeps_frame_next_minibatch fuel num w r :
  keeps_frame (float32:=float32) (next_minibatch fuel num w r).
Proof.
  unfold next_minibatch, _prepare_nextbatch.
  apply keeps_frame_bind; [apply keeps_frame_while | intros v].
  frame_step.
Qed.

(** C9.  A call of [next_minibatch] changes no attribute of the object but
    [next_seq_idx]: [data], [sequences], the two stream descriptors and the
    two dimensions are, however the call ends (a batch, an exception, or
    still looping after any number of rounds), those it started with. *)
Theorem next_minibatch_mutates_only_cursor
  (fuel : nat) (num_samples number_of_workers worker_rank : Z) self :
  let self' :=
    final_self (next_minibatch fuel num_samples number_of_workers worker_rank self) in
  data self' = data self /\ sequences self' = sequences self /\
  fsi self' = fsi self /\ lsi self' = lsi self /\
  f_dim self' = f_dim self /\ l_dim self' = l_dim self.
Proof.
  intros self'.
  pose proof (keeps_frame_next_minibatch fuel num_samples number_of_workers
                worker_rank self) as H.
  fold self' in H. unfold cursor_only in H. rewrite H. simpl. tauto.
Qed.


(** ** The loop, one round at a time *)

Lemma while_loop_O num w r v self :
  while_loop 0 num w r v self =
  if loop_test num v then OutOfFuel self else Returns v self.
Proof. simpl. by destruct (loop_test num v). Qed.

Lemma while_loop_S fuel num w r v self :
  while_loop (S fuel) num w r v self =
  if loop_test num v then
    match loop_body num w r v self with
    | Returns (Continue, v') self' => while_loop fuel num w r v' self'
    | Returns (Break, v') self' => Returns v' self'
    | Raises e self' => Raises e self'
    | OutOfFuel self' => OutOfFuel self'
    end
  else Returns v self.
Proof.
  simpl. destruct (loop_test num v); [| done].
  unfold bind. by destruct (loop_body num w r v self) as [[[] v'] s'|e s'|s'].
Qed.

(** A call that ended within its budget ends the same way with more. *)
Lemma while_loop_more_fuel fuel extra num w r v self :
  ~ still_running (while_loop fuel num w r v self) ->
  while_loop (fuel + extra) num w r v self = while_loop fuel num w r v self.
Proof.
  revert v self. induction fuel as [|fuel IH]; intros v self.
  - rewrite while_loop_O. destruct (loop_test num v) eqn:Ht; simpl; [done |].
    intros _. destruct extra; [by rewrite while_loop_O, Ht |].
    by rewrite while_loop_S, Ht.
  - replace (S fuel + extra)%nat with (S (fuel + extra)) by lia.
    rewrite !while_loop_S. destruct (loop_test num v); [| done].
    destruct (loop_body num w r v self) as [[[] v'] s'|e s'|s']; try done.
    apply IH.
Qed.

Lemma next_minibatch_more_fuel fuel extra num w r self :
  ~ still_running (next_minibatch fuel num w r self) ->
  next_minibatch (fuel + extra) num w r self = next_minibatch fuel num w r self.
Proof.
  unfold next_minibatch, _prepare_nextbatch. intros H.
  assert (Hw : ~ still_running (while_loop fuel num w r initial_locals self)).
  { intros Hs. apply H. unfold bind at 1.
    by destruct (while_loop fuel num w r initial_locals self). }
  unfold bind at 1. rewrite while_loop_more_fuel by done.
  symmetry. by unfold bind at 1.
Qed.

(** Stacking keeps the arrays, and arrays of one shape are stacked. *)
Lemma asarray_stack_Some (arrays stacked : list (ndarray float32)) :
  asarray_stack arrays = Some stacked -> stacked = arrays.
Proof.
  destruct arrays as [|a rest]; simpl; [by intros [= <-] |].
  destruct (forallb _ rest); [by intros [= <-] | done].
Qed.

(** A call of [next_minibatch] is the loop followed by the stacking of the
    label arrays. *)
Lemma next_minibatch_eq fuel num w r self :
  next_minibatch fuel num w r self
  = match while_loop fuel num w r initial_locals self with
    | Returns v self' =>
        match asarray_stack (labels v) with
        | Some _ => Returns (batch_of self' v) self'
        | None => Raises ValueError self'
        end
    | Raises e self' => Raises e self'
    | OutOfFuel self' => OutOfFuel self'
    end.
Proof.
  unfold next_minibatch, _prepare_nextbatch. unfold bind at 1.
  destruct (while_loop _ _ _ _ _ _) as [v s1|e s1|s1]; try done.
  unfold bind, attr, or_raise, ret, raise.
  destruct (asarray_stack (labels v)) as [stacked|] eqn:Hs; [| done].
  by apply asarray_stack_Some in Hs as ->.
Qed.

Lemma asarray_stack_uniform (sh : list nat) (arrays : list (ndarray float32)) :
  Forall (fun a => shape a = sh) arrays -> asarray_stack arrays = Some arrays.
Proof.
  destruct arrays as [|a rest]; [done |]. intros [Ha Hrest]%Forall_cons. simpl.
  assert (forallb (fun b => bool_decide (shape b = shape a)) rest = true) as ->;
    [| done].
  apply forallb_forall. intros b Hb%list_elem_of_In.
  apply bool_decide_eq_true. rewrite Ha. by eapply Forall_forall in Hrest.
Qed.

(** A round that goes back to the test with nothing changed is repeated for
    ever. *)
Lemma while_loop_stuck fuel num w r v self :
  loop_test num v = true ->
  loop_body num w r v self = Returns (Continue, v) self ->
  while_loop fuel num w r v self = OutOfFuel self.
Proof.
  intros Ht Hb. induction fuel as [|fuel IH].
  - by rewrite while_loop_O, Ht.
  - by rewrite while_loop_S, Ht, Hb.
Qed.

Lemma wrap_around_eq v self :
  wrap_around v self
  = Returns (wrapped v self) (set_next_seq_idx (examined self) self).
Proof.
  unfold wrap_around, bind, attr, wrapped, examined.
  destruct (next_seq_idx self =? len (sequences self)); simpl.
  - by rewrite orb_true_r.
  - rewrite orb_false_r, set_next_seq_idx_same. by destruct v.
Qed.

Lemma select_seq_id_eq self (i seq_id : Z) :
  getitem (sequences self) (next_seq_idx self) = Some i ->
  getitem (sequences self) i = Some seq_id ->
  select_seq_id self = Returns seq_id self.
Proof.
  intros Hi Hs. unfold select_seq_id, bind, attr. rewrite Hi. simpl.
  by rewrite Hs.
Qed.

(** What a round does once the sequence it looks at is known. *)
Section Round.

Variables (num w r : Z) (v : locals float32) (self : source).
Variables (i seq_id : Z).
Hypothesis Hpos : getitem (sequences self) (examined self) = Some i.
Hypothesis Hsel : getitem (sequences self) i = Some seq_id.

Lemma loop_body_selected :
  loop_body num w r v self
  = (do m <- or_raise ZeroDivisionError (py_mod seq_id w);
     if negb (m =? r) then ret (Continue, wrapped v self)
     else
       do d <- attr data;
       do entry <- or_raise KeyError (d !! seq_id);
       do label_data <- or_raise KeyError (seq_labels entry);
       if (truthy (features v) || truthy (labels v))
          && (Z.max (f_sample_count v + len (seq_features entry))
                    (l_sample_count v + len label_data) >? num)
       then ret (Break, wrapped v self)
       else
         do idx <- attr next_seq_idx;
         do _ <- assign_next_seq_idx (idx + 1);
         ret (Continue, taken (wrapped v self) (seq_features entry) label_data))
      (set_next_seq_idx (examined self) self).
Proof.
  unfold loop_body. unfold bind at 1. rewrite wrap_around_eq.
  unfold bind at 1.
  by rewrite (select_seq_id_eq (set_next_seq_idx (examined self) self) i seq_id).
Qed.

Lemma loop_body_skip (m : Z) :
  py_mod seq_id w = Some m -> m <> r ->
  loop_body num w r v self
  = Returns (Continue, wrapped v self) (set_next_seq_idx (examined self) self).
Proof.
  intros Hm Hne. rewrite loop_body_selected. unfold bind. rewrite Hm. simpl.
  destruct (m =? r) eqn:E; [lia | done].
Qed.

Lemma loop_body_unlabelled (entry : seq_data float32) :
  py_mod seq_id w = Some r ->
  data self !! seq_id = Some entry -> seq_labels entry = None ->
  loop_body num w r v self
  = Raises KeyError (set_next_seq_idx (examined self) self).
Proof.
  intros Hm He Hl. rewrite loop_body_selected. unfold bind. rewrite Hm. simpl.
  rewrite Z.eqb_refl. simpl. rewrite He. simpl. by rewrite Hl.
Qed.

Lemma loop_body_labelled (entry : seq_data float32) (label_data : ndarray float32) :
  py_mod seq_id w = Some r ->
  data self !! seq_id = Some entry -> seq_labels entry = Some label_data ->
  loop_body num w r v self
  = if (truthy (features v) || truthy (labels v))
       && (Z.max (f_sample_count v + len (seq_features entry))
                 (l_sample_count v + len label_data) >? num)
    then Returns (Break, wrapped v self)
           (set_next_seq_idx (examined self) self)
    else Returns (Continue, taken (wrapped v self) (seq_features entry) label_data)
           (set_next_seq_idx (examined self + 1) self).
Proof.
  intros Hm He Hl. rewrite loop_body_selected. unfold bind. rewrite Hm. simpl.
  rewrite Z.eqb_refl. simpl. rewrite He. simpl. rewrite Hl. simpl.
  by destruct (_ && _).
Qed.

End Round.

(** How a round that returns can have gone. *)
Lemma loop_body_Returns num w r v self fl v' self' :
  loop_body num w r v self = Returns (fl, v') self' ->
  (fl = Continue /\ v' = wrapped v self /\
   self' = set_next_seq_idx (examined self) self) \/
  (fl = Break /\ v' = wrapped v self /\
   self' = set_next_seq_idx (examined self) self /\
   truthy (features v) || truthy (labels v) = true) \/
  (exists feature_data label_data,
     fl = Continue /\ v' = taken (wrapped v self) feature_data label_data /\
     self' = set_next_seq_idx (examined self + 1) self).
Proof.
  unfold loop_body. unfold bind at 1. rewrite wrap_around_eq.
  unfold bind at 1.
  destruct (select_seq_id _) as [seq_id s1|e s1|s1] eqn:Hsel; try done.
  assert (s1 = set_next_seq_idx (examined self) self) as ->.
  { revert Hsel. unfold select_seq_id, bind, attr, or_raise.
    repeat (destruct (getitem _ _); simpl; try done). by intros [= _ <-]. }
  unfold bind. destruct (py_mod seq_id w) as [m|]; simpl; [| done].
  destruct (m =? r); simpl.
  - destruct (data self !! seq_id) as [entry|]; simpl; [| done].
    destruct (seq_labels entry) as [label_data|]; simpl; [| done].
    destruct (truthy (features v) || truthy (labels v)) eqn:Hne; simpl.
    + destruct (_ >? _); simpl; intros [= <- <- <-]; [right; left | right; right];
        eauto 10.
    + intros [= <- <- <-]. right; right. eauto 10.
  - intros [= <- <- <-]. by left.
Qed.

(** ** The counts of a batch *)

Lemma counted_initial : counted (float32:=float32) initial_locals.
Proof. by repeat split. Qed.

Lemma counted_wrapped v self : counted v -> counted (wrapped v self).
Proof. by intros (? & ? & ?). Qed.

Lemma counted_admitted v feature_data label_data :
  counted v -> counted (taken v feature_data label_data).
Proof.
  intros (Hlen & Hf & Hl). unfold counted, taken; simpl.
  rewrite !length_app, !concat_app, !len_app; simpl.
  rewrite !app_nil_r, Hlen, Hf, Hl. done.
Qed.

Lemma counted_truthy v :
  counted v -> truthy (features v) || truthy (labels v) = true -> features v <> [].
Proof.
  intros (Hlen & _ & _) H Hnil. rewrite Hnil in *.
  destruct (labels v); simpl in *; congruence.
Qed.

Lemma counted_full v num :
  counted v -> 0 < num -> loop_test num v = false -> features v <> [].
Proof.
  intros (Hlen & Hf & Hl) Hnum Ht Hnil. unfold loop_test in Ht.
  rewrite Hnil in *. destruct (labels v); [| done].
  simpl in *. unfold len in *. simpl in *. lia.
Qed.

Lemma while_loop_counted fuel num w r v self v' self' :
  counted v ->
  while_loop fuel num w r v self = Returns v' self' ->
  counted v' /\ (0 < num -> features v' <> []).
Proof.
  revert v self. induction fuel as [|fuel IH]; intros v self Hc.
  - rewrite while_loop_O. destruct (loop_test num v) eqn:Ht; [done |].
    intros [= <- <-]. split; [done |]. intros Hnum. by eapply counted_full.
  - rewrite while_loop_S. destruct (loop_test num v) eqn:Ht.
    + destruct (loop_body num w r v self) as [[fl v1] s1|e s1|s1] eqn:Hb;
        try done.
      apply loop_body_Returns in Hb
        as [(-> & -> & ->)|[(-> & -> & -> & Hne)|(fd & ld & -> & -> & ->)]].
      * apply IH. by apply counted_wrapped.
      * intros [= <- <-]. split; [by apply counted_wrapped |].
        intros _. simpl. by apply counted_truthy.
      * apply IH. by apply counted_admitted, counted_wrapped.
    + intros [= <- <-]. split; [done |]. intros Hnum. by eapply counted_full.
Qed.

(** The batch of a call that returns: one item per sequence in each
    stream, and the counts of the samples in them. *)
Lemma next_minibatch_counted fuel num w r self b self' :
  next_minibatch fuel num w r self = Returns b self' ->
  md_num_sequences (fst b) = len (batch_features b) /\
  md_num_sequences (snd b) = len (batch_labels b) /\
  len (batch_features b) = len (batch_labels b) /\
  md_num_samples (fst b) = len (concat (batch_features b)) /\
  md_num_samples (snd b) = len (concat (batch_labels b)) /\
  (0 < num -> 1 <= md_num_sequences (fst b)).
Proof.
  rewrite next_minibatch_eq.
  destruct (while_loop _ _ _ _ _ _) as [v s1|e s1|s1] eqn:Hw; try done.
  apply while_loop_counted in Hw as [(Hlen & Hf & Hl) Hne];
    [| apply counted_initial].
  destruct (asarray_stack (labels v)); [| done].
  intros [= <- <-]. unfold batch_features, batch_labels.
  simpl. repeat split; try done.
  - unfold len. by rewrite Hlen.
  - unfold len. by rewrite Hlen.
  - intros Hnum. apply Hne in Hnum. apply len_pos in Hnum. lia.
Qed.

(** ** One worker, identifiers [0 .. n-1], every sequence labelled *)

Lemma getitem_seqZ (n i : Z) : 0 <= i < n -> getitem (seqZ 0 n) i = Some i.
Proof.
  intros Hi. unfold getitem.
  destruct (0 <=? i) eqn:E; [| lia].
  rewrite lookup_seqZ. split; lia.
Qed.

Lemma walked_snoc (n c0 : Z) (k : nat) :
  walked n c0 (S k) = walked n c0 k ++ [(c0 + Z.of_nat k) mod n].
Proof. unfold walked. by rewrite seqZ_S, fmap_app. Qed.

Lemma walked_below (n c0 : Z) (k : nat) :
  0 <= c0 -> c0 + Z.of_nat k <= n -> walked n c0 k = seqZ c0 (Z.of_nat k).
Proof.
  intros H0 Hk. unfold walked.
  replace (seqZ c0 (Z.of_nat k)) with (Z.add c0 <$> seqZ 0 (Z.of_nat k))
    by (by rewrite fmap_add_seqZ, Z.add_0_r).
  apply list_fmap_ext. intros i j Hj.
  apply lookup_seqZ in Hj as [-> Hi]. apply Z.mod_small. lia.
Qed.

Lemma walked_beyond (n c0 : Z) (k : nat) :
  0 < n -> 0 <= c0 <= n -> n <= c0 + Z.of_nat k ->
  walked n c0 k
  = seqZ c0 (n - c0) ++ cyclic n (Z.to_nat (c0 + Z.of_nat k - n)).
Proof.
  intros Hn Hc Hk. unfold cyclic, walked.
  replace (Z.of_nat k) with ((n - c0) + (c0 + Z.of_nat k - n)) at 1 by lia.
  rewrite seqZ_app, fmap_app by lia. f_equal.
  - replace (n - c0) with (Z.of_nat (Z.to_nat (n - c0))) by lia.
    apply (walked_below n c0 (Z.to_nat (n - c0))); lia.
  - rewrite Z2Nat.id by lia.
    replace (seqZ (0 + (n - c0)) (c0 + Z.of_nat k - n))
      with (Z.add (n - c0) <$> seqZ 0 (c0 + Z.of_nat k - n))
      by (by rewrite fmap_add_seqZ, Z.add_0_r).
    rewrite <- list_fmap_compose.
    apply list_fmap_ext. intros i j _. simpl.
    replace (c0 + (n - c0 + j)) with (j + 1 * n) by lia.
    apply Z_mod_plus_full.
Qed.

Section SingleWorker.

Variables (n num_samples : Z) (base : source).
Hypothesis Hn : 0 < n.
Hypothesis Hnum : 0 < num_samples.
Hypothesis Hseq : sequences base = seqZ 0 n.
Hypothesis Hdata : forall i, 0 <= i < n ->
  exists entry label_data,
    data base !! i = Some entry /\ seq_labels entry = Some label_data /\
    seq_features entry <> [].
Variable sh : list nat.
Hypothesis Hshape : forall i entry label_data, 0 <= i < n ->
  data base !! i = Some entry -> seq_labels entry = Some label_data ->
  shape label_data = sh.

Local Abbreviation at_ c := (set_next_seq_idx c base).

Lemma len_sequences : len (sequences base) = n.
Proof. rewrite Hseq. unfold len. rewrite length_seqZ. lia. Qed.

Lemma examined_at (c : Z) :
  0 <= c <= n ->
  examined (at_ c) = (if c =? n then 0 else c) /\ 0 <= examined (at_ c) < n.
Proof.
  intros Hc. unfold examined. simpl. rewrite len_sequences.
  destruct (c =? n) eqn:E; lia.
Qed.

Lemma loop_body_single v (c : Z) :
  0 <= c <= n ->
  exists entry label_data,
    data base !! examined (at_ c) = Some entry /\
    seq_labels entry = Some label_data /\ seq_features entry <> [] /\
    loop_body num_samples 1 0 v (at_ c)
    = if (truthy (features v) || truthy (labels v))
         && (Z.max (f_sample_count v + len (seq_features entry))
                   (l_sample_count v + len label_data) >? num_samples)
      then Returns (Break, wrapped v (at_ c)) (at_ (examined (at_ c)))
      else Returns (Continue,
                    taken (wrapped v (at_ c)) (seq_features entry) label_data)
             (at_ (examined (at_ c) + 1)).
Proof.
  intros Hc. destruct (examined_at c Hc) as [_ Hx].
  destruct (Hdata _ Hx) as (entry & label_data & He & Hl & Hf).
  exists entry, label_data. repeat split; try done.
  assert (Hg : getitem (sequences (at_ c)) (examined (at_ c))
               = Some (examined (at_ c))).
  { simpl. rewrite Hseq. by apply getitem_seqZ. }
  rewrite (loop_body_labelled num_samples 1 0 v (at_ c) _ _ Hg Hg entry label_data);
    try done.
  unfold py_mod. simpl. by rewrite Z.mod_1_r.
Qed.

Lemma walk_inv_initial (c0 : Z) : 0 <= c0 <= n -> walk_inv n base c0 initial_locals c0.
Proof.
  intros Hc. repeat split; try done; try lia. simpl. unfold len. simpl. lia.
Qed.

Lemma walk_inv_wrapped (c0 : Z) v (c : Z) :
  walk_inv n base c0 v c ->
  walk_inv n base c0 (wrapped v (at_ c)) (examined (at_ c)) /\
  examined (at_ c) = (c0 + len (features v)) mod n.
Proof.
  intros (Hcnt & Hf & Hc & Hno & Hyes).
  destruct (examined_at c Hc) as [Hx Hlt].
  assert (Hflag : sweep_end (wrapped v (at_ c)) = sweep_end v || (c =? n)).
  { simpl. by rewrite len_sequences. }
  assert (Hmod : examined (at_ c) = (c0 + len (features v)) mod n).
  { rewrite Hx. destruct (c =? n) eqn:Hcn.
    - apply Z.eqb_eq in Hcn as ->. destruct (sweep_end v).
      + destruct Hyes as [_ <-]; [done |]. by rewrite Z.mod_same by lia.
      + rewrite <- Hno by done. by rewrite Z.mod_same by lia.
    - destruct (sweep_end v).
      + destruct Hyes as [_ <-]; [done |]. rewrite Z.mod_small; lia.
      + rewrite <- Hno by done. rewrite Z.mod_small; lia. }
  split; [| done].
  split; [by apply counted_wrapped |]. split; [done |]. split; [lia |].
  rewrite Hflag. change (features (wrapped v (at_ c))) with (features v).
  split.
  - intros [Hv Hcn]%orb_false_iff. rewrite Hx, Hcn. auto.
  - intros Hw. split.
    + destruct (sweep_end v); [by apply Hyes |]. simpl in Hw.
      specialize (Hno eq_refl). lia.
    + rewrite Hmod. by rewrite Z.mod_mod by lia.
Qed.

Lemma walk_inv_admitted (c0 : Z) v (c : Z) entry label_data :
  walk_inv n base c0 v c ->
  data base !! examined (at_ c) = Some entry ->
  walk_inv n base c0 (taken (wrapped v (at_ c)) (seq_features entry) label_data)
    (examined (at_ c) + 1).
Proof.
  intros Hinv He.
  destruct (walk_inv_wrapped c0 v c Hinv) as [(Hcnt & Hf & Hc & Hno & Hyes) Hmod].
  destruct Hinv as (_ & _ & Hc0 & _ & _).
  destruct (examined_at c Hc0) as [_ Hlt].
  change (features (wrapped v (at_ c))) with (features v) in *.
  assert (Hlen : len (features v ++ [seq_features entry]) = len (features v) + 1).
  { rewrite len_app. unfold len. simpl. lia. }
  split; [by apply counted_admitted |].
  change (features (taken (wrapped v (at_ c)) (seq_features entry) label_data))
    with (features v ++ [seq_features entry]).
  change (sweep_end (taken (wrapped v (at_ c)) (seq_features entry) label_data))
    with (sweep_end (wrapped v (at_ c))).
  split; [| split; [lia | split]].
  - rewrite length_app. simpl. rewrite Nat.add_1_r, walked_snoc, fmap_app.
    rewrite <- Hf. f_equal. simpl. fold (len (features v)). rewrite <- Hmod.
    unfold features_of. by rewrite He.
  - intros Hw. rewrite Hlen, (Hno Hw). lia.
  - intros Hw. destruct (Hyes Hw) as [Hge Heq]. rewrite Hlen. split; [lia |].
    rewrite Z.add_assoc, (Z.add_mod (c0 + len (features v))) by lia.
    rewrite <- Heq, <- Z.add_mod by lia. done.
Qed.

Lemma labels_walked_admitted (c0 : Z) v (c : Z) entry label_data :
  walk_inv n base c0 v c -> labels_walked n base c0 v ->
  data base !! examined (at_ c) = Some entry ->
  seq_labels entry = Some label_data ->
  labels_walked n base c0
    (taken (wrapped v (at_ c)) (seq_features entry) label_data).
Proof.
  intros Hinv Hlab He Hl.
  destruct (walk_inv_wrapped c0 v c Hinv) as [_ Hmod].
  unfold labels_walked in *. simpl.
  rewrite length_app. simpl. rewrite Nat.add_1_r, walked_snoc, fmap_app.
  rewrite <- Hlab. f_equal. simpl. fold (len (features v)). rewrite <- Hmod.
  unfold label_array_of. by rewrite He; simpl; rewrite Hl.
Qed.

(** The label arrays at walked positions all have the one shape. *)
Lemma walked_labels_shape (c0 : Z) (k : nat) :
  Forall (fun a => shape a = sh) (label_array_of base <$> walked n c0 k).
Proof.
  apply Forall_fmap, Forall_fmap, Forall_forall. intros j _. simpl.
  assert (Hi : 0 <= (c0 + j) mod n < n) by (apply Z.mod_pos_bound; lia).
  destruct (Hdata _ Hi) as (entry & label_data & He & Hl & _).
  unfold label_array_of. rewrite He. simpl. rewrite Hl. simpl.
  by eapply Hshape.
Qed.

(** From any state of the walk the loop comes to an end within as many
    rounds as samples are still wanted, and the walk has gone on from where
    it was. *)
Lemma while_loop_single (fuel : nat) (c0 : Z) v (c : Z) :
  walk_inv n base c0 v c -> labels_walked n base c0 v ->
  (Z.to_nat (num_samples - f_sample_count v) <= fuel)%nat ->
  exists v' c',
    while_loop fuel num_samples 1 0 v (at_ c) = Returns v' (at_ c') /\
    walk_inv n base c0 v' c' /\ labels_walked n base c0 v'.
Proof.
  revert v c. induction fuel as [|fuel IH]; intros v c Hinv Hlab Hfuel.
  - rewrite while_loop_O. unfold loop_test.
    destruct (_ <? _) eqn:Ht; [lia |]. eauto.
  - rewrite while_loop_S. unfold loop_test.
    destruct (_ <? _) eqn:Ht; [| eauto].
    pose proof Hinv as (_ & _ & Hc & _ & _).
    destruct (loop_body_single v c Hc) as (entry & label_data & He & Hl & Hfe & ->).
    destruct (_ && _).
    + exists (wrapped v (at_ c)), (examined (at_ c)). split; [done |].
      split; [by apply walk_inv_wrapped | exact Hlab].
    + apply IH; [by apply walk_inv_admitted | by apply (labels_walked_admitted c0 v c) |].
      unfold taken, wrapped. simpl. apply len_pos in Hfe. lia.
Qed.

(** One call from the cursor [c]: it returns, with at least one sequence,
    the sequences at the positions walked from [c] on. *)
Lemma next_minibatch_single (fuel : nat) (c : Z) :
  0 <= c <= n -> (Z.to_nat num_samples <= fuel)%nat ->
  exists b c' (k : nat),
    next_minibatch fuel num_samples 1 0 (at_ c) = Returns b (at_ c') /\
    batch_features b = features_of base <$> walked n c k /\
    batch_labels b = label_array_of base <$> walked n c k /\
    (0 < k)%nat /\ 0 <= c' <= n /\
    (md_sweep_end (fst b) = false -> c' = c + Z.of_nat k) /\
    (md_sweep_end (fst b) = true -> n <= c + Z.of_nat k).
Proof.
  intros Hc Hfuel.
  destruct (while_loop_single fuel c initial_locals c (walk_inv_initial c Hc))
    as (v' & c' & Hw & Hinv & Hlab); [done | simpl; lia |].
  pose proof (while_loop_counted _ _ _ _ _ _ _ _ counted_initial Hw) as [_ Hne].
  destruct Hinv as (_ & Hf & Hc' & Hno & Hyes).
  exists (batch_of (at_ c') v'), c', (length (features v')).
  split; [| split; [done | split; [done | split; [| split; [done | split]]]]].
  - rewrite next_minibatch_eq, Hw.
    rewrite (asarray_stack_uniform sh); [done |].
    unfold labels_walked in Hlab. rewrite Hlab. apply walked_labels_shape.
  - specialize (Hne Hnum). destruct (features v'); simpl; [done | lia].
  - exact Hno.
  - intros Hs. by apply Hyes.
Qed.

(** Calls repeated from the cursor [c] until the sweep flag comes back set:
    the batches before the flagged one hold the sequences from [c] up to
    some position [c1], the flagged one the rest of the list and then the
    sequences it took again from the start. *)
Lemma until_sweep_end_single (fuel calls : nat) (c : Z) :
  (Z.to_nat num_samples <= fuel)%nat ->
  0 <= c <= n -> (Z.to_nat (n - c) < calls)%nat ->
  exists before last (c1 c' : Z) (m : nat),
    until_sweep_end calls fuel num_samples 1 0 (at_ c)
      = Returns (before ++ [last]) (at_ c') /\
    Forall (fun b => md_sweep_end (fst b) = false) before /\
    md_sweep_end (fst last) = true /\
    c <= c1 <= n /\
    (concat (batch_features <$> before) = features_of base <$> seqZ c (c1 - c) /\
     batch_features last = features_of base <$> (seqZ c1 (n - c1) ++ cyclic n m)) /\
    concat (batch_labels <$> before) = label_array_of base <$> seqZ c (c1 - c) /\
    batch_labels last = label_array_of base <$> (seqZ c1 (n - c1) ++ cyclic n m).
Proof.
  intros Hfuel. revert c. induction calls as [|calls IH]; intros c Hc Hcalls;
    [lia |].
  destruct (next_minibatch_single fuel c Hc Hfuel)
    as (b & c' & k & Hcall & Hb & Hbl & Hk & Hc' & Hno & Hyes).
  simpl. unfold bind at 1. rewrite Hcall.
  destruct (md_sweep_end (fst b)) eqn:Hflag.
  - exists [], b, c, c', (Z.to_nat (c + Z.of_nat k - n)).
    assert (Hwalk : walked n c k
                    = seqZ c (n - c) ++ cyclic n (Z.to_nat (c + Z.of_nat k - n)))
      by (apply walked_beyond; try done; by apply Hyes).
    rewrite Z.sub_diag, Hb, Hbl, Hwalk.
    split; [done |]. split; [done |]. split; [done |]. split; [lia |]. done.
  - specialize (Hno eq_refl). subst c'.
    destruct (IH (c + Z.of_nat k))
      as (before & last & c1 & c' & m & Hrest & Hbefore & Hlast & Hc1
          & [Hcat Hfin] & Hlcat & Hlfin); [lia | lia |].
    unfold bind. rewrite Hrest. simpl.
    exists (b :: before), last, c1, c', m.
    assert (Hsplit : seqZ c (c1 - c)
                     = walked n c k ++ seqZ (c + Z.of_nat k) (c1 - (c + Z.of_nat k))).
    { rewrite walked_below by lia.
      replace (c1 - c) with (Z.of_nat k + (c1 - (c + Z.of_nat k))) by lia.
      by rewrite seqZ_app by lia. }
    split; [done |]. split; [by constructor |]. split; [done |].
    split; [lia |]. rewrite Hsplit, !fmap_app, !fmap_cons. simpl.
    rewrite Hcat, Hb, Hbl, Hlcat, Hfin, Hlfin, !fmap_app. done.
Qed.

End SingleWorker.

(** C3, as the code has it.  One worker, a source at cursor 0 whose sorted
    identifiers are [0 .. n-1], each sequence with at least one feature and
    a label array, the label arrays all of one shape, and a positive number
    of samples asked for.  Calling [next_minibatch] again and again comes
    to a first batch with the sweep flag set.  The batches before it hold,
    in ascending order and once each, the sequences up to some position
    [c1]; the flagged batch holds the rest of the list and then the
    sequences it took again from the start after wrapping.  So the
    sequences returned, features and labels alike, are the whole sorted
    list once, followed by [m] more that repeat it from its start. *)
Theorem sweep_of_a_single_worker (n num_samples : Z) (calls fuel : nat) self
  (sh : list nat) :
  0 < n -> 0 < num_samples ->
  sequences self = seqZ 0 n -> next_seq_idx self = 0 ->
  (forall i, 0 <= i < n ->
     exists entry label_data,
       data self !! i = Some entry /\ seq_labels entry = Some label_data /\
       seq_features entry <> [] /\ shape label_data = sh) ->
  (Z.to_nat n < calls)%nat -> (Z.to_nat num_samples <= fuel)%nat ->
  exists before last self' (c1 : Z) (m : nat),
    until_sweep_end calls fuel num_samples 1 0 self
      = Returns (before ++ [last]) self' /\
    Forall (fun b => md_sweep_end (fst b) = false) before /\
    md_sweep_end (fst last) = true /\
    0 <= c1 <= n /\
    concat (batch_features <$> before) = features_of self <$> seqZ 0 c1 /\
    batch_features last = features_of self <$> (seqZ c1 (n - c1) ++ cyclic n m) /\
    concat (batch_features <$> (before ++ [last]))
      = (features_of self <$> sequences self) ++ (features_of self <$> cyclic n m) /\
    concat (batch_labels <$> before) = label_array_of self <$> seqZ 0 c1 /\
    batch_labels last = label_array_of self <$> (seqZ c1 (n - c1) ++ cyclic n m) /\
    concat (batch_labels <$> (before ++ [last]))
      = (label_array_of self <$> sequences self)
        ++ (label_array_of self <$> cyclic n m).
Proof.
  intros Hn Hnum Hseq Hidx Hall Hcalls Hfuel.
  assert (Hdata : forall i, 0 <= i < n ->
            exists entry label_data,
              data self !! i = Some entry /\ seq_labels entry = Some label_data /\
              seq_features entry <> []).
  { intros i Hi. destruct (Hall i Hi) as (entry & label_data & ? & ? & ? & _).
    by exists entry, label_data. }
  assert (Hshape : forall i entry label_data, 0 <= i < n ->
            data self !! i = Some entry -> seq_labels entry = Some label_data ->
            shape label_data = sh).
  { intros i entry label_data Hi He Hl.
    destruct (Hall i Hi) as (entry' & label_data' & He' & Hl' & _ & Hsh).
    congruence. }
  destruct (until_sweep_end_single n num_samples self Hn Hnum Hseq Hdata
              sh Hshape fuel calls 0 Hfuel)
    as (before & last & c1 & c' & m & Hrun & Hbefore & Hlast & Hc1
        & [Hcat Hfin] & Hlcat & Hlfin);
    [lia | lia |].
  assert (Hself : set_next_seq_idx 0 self = self)
    by (by rewrite <- Hidx, set_next_seq_idx_same).
  rewrite Hself in Hrun. rewrite Z.sub_0_r in Hcat, Hlcat.
  assert (Hlist : seqZ 0 n = seqZ 0 c1 ++ seqZ c1 (n - c1)).
  { replace (seqZ 0 n) with (seqZ 0 (c1 + (n - c1))) by (f_equal; lia).
    by rewrite seqZ_app by lia. }
  exists before, last, (set_next_seq_idx c' self), c1, m.
  split; [done |]. split; [done |]. split; [done |]. split; [lia |].
  split; [done |]. split; [done |]. split; [| split; [done | split; [done |]]].
  - rewrite fmap_app, concat_app, Hcat. simpl.
    rewrite app_nil_r, Hfin, Hseq, Hlist, !fmap_app. by rewrite app_assoc.
  - rewrite fmap_app, concat_app, Hlcat. simpl.
    rewrite app_nil_r, Hlfin, Hseq, Hlist, !fmap_app. by rewrite app_assoc.
Qed.

(** ** The rule of admission *)

Lemma max_exceeds (a b num : Z) :
  (Z.max a b >? num) = true <-> num < a \/ num < b.
Proof. rewrite Z.gtb_lt. lia. Qed.

(** C7.  A round of the loop on an eligible sequence that has a label
    array.  If the batch is not empty and adding the sequence would take the
    feature count or the label count above [num_samples], the loop is left
    with the batch as it was and the cursor on that sequence.  Otherwise,
    so also whenever the batch is empty, the sequence is added, whatever its
    size, and the cursor moves past it.  With [num_samples = 1] the first
    eligible sequence is therefore returned as a batch of one sequence even
    if it has more than one sample, and no batch asked for with a positive
    [num_samples] comes back empty. *)
Theorem admission_rule (num_samples number_of_workers worker_rank : Z)
  v self (i seq_id : Z) (entry : seq_data float32) (label_data : ndarray float32) :
  getitem (sequences self) (examined self) = Some i ->
  getitem (sequences self) i = Some seq_id ->
  number_of_workers <> 0 -> seq_id mod number_of_workers = worker_rank ->
  data self !! seq_id = Some entry -> seq_labels entry = Some label_data ->
  let exceeds :=
    num_samples < f_sample_count v + len (seq_features entry) \/
    num_samples < l_sample_count v + len label_data in
  let nonempty := features v <> [] \/ labels v <> [] in
  (nonempty -> exceeds ->
   loop_body num_samples number_of_workers worker_rank v self
     = Returns (Break, wrapped v self) (set_next_seq_idx (examined self) self) /\
   (loop_test num_samples v = true ->
    forall fuel,
      while_loop (S fuel) num_samples number_of_workers worker_rank v self
      = Returns (wrapped v self) (set_next_seq_idx (examined self) self))) /\
  (~ nonempty \/ ~ exceeds ->
   loop_body num_samples number_of_workers worker_rank v self
     = Returns (Continue, taken (wrapped v self) (seq_features entry) label_data)
         (set_next_seq_idx (examined self + 1) self)) /\
  (1 <= len (seq_features entry) ->
   forall fuel,
     next_minibatch (S fuel) 1 number_of_workers worker_rank self
     = Returns
         ({| md_value := Value_one_hot [seq_features entry] (f_dim self);
             md_num_sequences := 1;
             md_num_samples := len (seq_features entry);
             md_sweep_end := next_seq_idx self =? len (sequences self) |},
          {| md_value := Value_dense [label_data];
             md_num_sequences := 1;
             md_num_samples := len label_data;
             md_sweep_end := next_seq_idx self =? len (sequences self) |})
         (set_next_seq_idx (examined self + 1) self)) /\
  (forall fuel num w r (s : source) b s',
     0 < num -> next_minibatch fuel num w r s = Returns b s' ->
     1 <= md_num_sequences (fst b)).
Proof.
  intros Hpos Hsel Hw Hr He Hl exceeds nonempty.
  assert (Hm : py_mod seq_id number_of_workers = Some worker_rank).
  { unfold py_mod. destruct (_ =? 0) eqn:E; [lia | by rewrite Hr]. }
  pose proof (fun v => loop_body_labelled num_samples number_of_workers worker_rank
                v self i seq_id Hpos Hsel entry label_data Hm He Hl) as Hbody.
  assert (Hne : truthy (features v) || truthy (labels v) = true <-> nonempty).
  { unfold nonempty. destruct (features v), (labels v); simpl;
      (split; [intros Hb | intros [Hb|Hb]]); try done; by (left + right). }
  split; [| split; [| split]].
  - intros Hn Hx.
    assert (Hb : loop_body num_samples number_of_workers worker_rank v self
                 = Returns (Break, wrapped v self)
                     (set_next_seq_idx (examined self) self)).
    { rewrite Hbody. apply Hne in Hn. apply max_exceeds in Hx.
      by rewrite Hn, Hx. }
    split; [done |]. intros Ht fuel. by rewrite while_loop_S, Ht, Hb.
  - intros Hor. rewrite Hbody.
    destruct (truthy (features v) || truthy (labels v)) eqn:Hn; [| done].
    destruct (_ >? _) eqn:Hx; [| done].
    apply max_exceeds in Hx. pose proof (proj1 Hne eq_refl) as Hn'.
    exfalso. unfold exceeds in Hor. tauto.
  - intros Hlen fuel.
    pose proof (loop_body_labelled 1 number_of_workers worker_rank
                  initial_locals self i seq_id Hpos Hsel entry label_data
                  Hm He Hl) as Hb.
    simpl in Hb.
    unfold next_minibatch, _prepare_nextbatch. unfold bind at 1.
    rewrite while_loop_S. change (loop_test 1 initial_locals) with true.
    cbv iota. rewrite Hb.
    assert (Ht : loop_test 1 (taken (wrapped initial_locals self)
                                (seq_features entry) label_data) = false).
    { unfold loop_test. simpl. pose proof (len_nonneg label_data). lia. }
    destruct fuel; [rewrite while_loop_O | rewrite while_loop_S]; by rewrite Ht.
  - intros fuel num w r s b s' Hnum Hcall.
    by apply (next_minibatch_counted fuel num w r s b s' Hcall).
Qed.

(** ** Sequences without a label *)

Lemma asarray_row_rows (to_float32 : string -> option float32) tokens labels :
  asarray_row to_float32 tokens = Some labels -> len labels = 1.
Proof.
  unfold asarray_row. destruct (mapM _ _); simpl; [| done]. by intros [= <-].
Qed.

Lemma prepare_line_ingested (to_float32 : string -> option float32) d line d' :
  map_Forall (fun _ => ingested) d ->
  prepare_line to_float32 d line = inr d' ->
  map_Forall (fun _ => ingested) d'.
Proof.
  intros Hd. unfold prepare_line.
  destruct (String.eqb _ _); [by intros [= <-] |].
  destruct (split1 _ _) as [|seq_id [|rest [|]]]; try done.
  destruct (int (strip seq_id)) as [k|]; [| done].
  destruct (getitem (split " " _) 1) as [feature|]; [| done].
  destruct (int _) as [vocab_idx|]; [| done].
  set (d1 := match d !! k with Some _ => d | None => _ end).
  assert (Hd1 : forall j entry, d1 !! j = Some entry ->
                  (j <> k -> ingested entry) /\
                  (forall label_data, seq_labels entry = Some label_data ->
                     len label_data = 1)).
  { intros j entry. unfold d1. destruct (d !! k) eqn:Hk.
    - intros Hj. split; [intros _|]; by apply (Hd j entry Hj).
    - destruct (decide (j = k)) as [->|Hne].
      + rewrite lookup_insert_eq. by intros [= <-].
      + rewrite lookup_insert_ne by done. intros Hj.
        split; [intros _|]; by apply (Hd j entry Hj). }
  set (d2 := alter _ k d1).
  assert (Hd2 : map_Forall (fun _ => ingested) d2).
  { intros j entry. unfold d2. destruct (decide (j = k)) as [->|Hne].
    - rewrite lookup_alter_eq. destruct (d1 !! k) as [e1|] eqn:Hk; [| done].
      intros [= <-]. split; simpl; [by destruct (seq_features e1) |].
      by apply (Hd1 k e1 Hk).
    - rewrite lookup_alter_ne by done. intros Hj. by apply (Hd1 j entry Hj). }
  destruct (len _ =? 2); [| by intros [= <-]].
  destruct (asarray_row _ _) as [labels|] eqn:Hrow; [| done].
  intros [= <-]. intros j entry. destruct (decide (j = k)) as [->|Hne].
  - rewrite lookup_alter_eq. destruct (d2 !! k) as [e2|] eqn:Hk; [| done].
    intros [= <-]. split; simpl; [by apply (Hd2 k e2 Hk) |].
    intros label_data [= <-]. by eapply asarray_row_rows.
  - rewrite lookup_alter_ne by done. apply Hd2.
Qed.

Lemma prepare_lines_ingested (to_float32 : string -> option float32) ls d d' :
  map_Forall (fun _ => ingested) d ->
  prepare_lines to_float32 d ls = inr d' ->
  map_Forall (fun _ => ingested) d'.
Proof.
  revert d. induction ls as [|line ls IH]; intros d Hd; simpl.
  - by intros [= <-].
  - destruct (prepare_line to_float32 d line) as [e|d1] eqn:Hline; [done |].
    apply IH. by eapply prepare_line_ingested.
Qed.

Lemma init_ingested (to_float32 : string -> option float32) text f l self :
  __init__ to_float32 text f l = inr self ->
  map_Forall (fun _ => ingested) (data self).
Proof.
  unfold __init__, _prepare_data.
  destruct (prepare_lines _ _ _) as [e|d] eqn:Hd; [done |].
  intros [= <-]. simpl. eapply prepare_lines_ingested; [| exact Hd].
  apply map_Forall_empty.
Qed.

(** C5, as the code has it.  The batch of a call that returns has its two
    sample counts taken separately: the features stream counts the feature
    tokens of its sequences, the labels stream the rows of their label
    arrays, and ingestion gives every label array exactly one row.  But an
    eligible sequence must have a label array: when the sequence the loop
    looks at is eligible and has none, the round raises [KeyError], and so
    does the call that starts on it. *)
Theorem label_array_required (num_samples number_of_workers worker_rank : Z)
  self (i seq_id : Z) (entry : seq_data float32) :
  getitem (sequences self) (examined self) = Some i ->
  getitem (sequences self) i = Some seq_id ->
  number_of_workers <> 0 -> seq_id mod number_of_workers = worker_rank ->
  data self !! seq_id = Some entry -> seq_labels entry = None ->
  (forall v,
     loop_body num_samples number_of_workers worker_rank v self
     = Raises KeyError (set_next_seq_idx (examined self) self)) /\
  (0 < num_samples ->
   forall fuel,
     next_minibatch (S fuel) num_samples number_of_workers worker_rank self
     = Raises KeyError (set_next_seq_idx (examined self) self)) /\
  (forall fuel num w r (s : source) b s',
     next_minibatch fuel num w r s = Returns b s' ->
     len (batch_features b) = len (batch_labels b) /\
     md_num_samples (fst b) = len (concat (batch_features b)) /\
     md_num_samples (snd b) = len (concat (batch_labels b))) /\
  (forall (to_float32 : string -> option float32) text f l s seq_id' entry',
     __init__ to_float32 text f l = inr s ->
     data s !! seq_id' = Some entry' ->
     seq_features entry' <> [] /\
     forall label_data, seq_labels entry' = Some label_data -> len label_data = 1).
Proof.
  intros Hpos Hsel Hw Hr He Hl.
  assert (Hm : py_mod seq_id number_of_workers = Some worker_rank).
  { unfold py_mod. destruct (_ =? 0) eqn:E; [lia | by rewrite Hr]. }
  pose proof (fun v => loop_body_unlabelled num_samples number_of_workers
                worker_rank v self i seq_id Hpos Hsel entry Hm He Hl) as Hbody.
  split; [done |]. split; [| split].
  - intros Hnum fuel. unfold next_minibatch, _prepare_nextbatch, bind.
    assert (Ht : loop_test num_samples (initial_locals : locals float32) = true).
    { unfold loop_test. simpl. lia. }
    by rewrite while_loop_S, Ht, Hbody.
  - intros fuel num w r s b s' Hcall.
    by destruct (next_minibatch_counted fuel num w r s b s' Hcall)
      as (_ & _ & ? & ? & ? & _).
  - intros to_float32 text f l s seq_id' entry' Hinit Hentry.
    exact (init_ingested to_float32 text f l s Hinit seq_id' entry' Hentry).
Qed.

(** ** Checkpoints *)

(** C8.  [get_checkpoint_state] returns the dictionary whose one entry is
    the current cursor and leaves the object as it was; restoring from the
    dictionary just captured leaves the object as it was too, so the next
    [next_minibatch] gives the same batch and the same final cursor as
    without the capture and the restore. *)
Theorem checkpoint_round_trip (fuel : nat) (num_samples number_of_workers worker_rank : Z) self :
  get_checkpoint_state self
    = Returns {[ "next_seq_idx"%string := next_seq_idx self ]} self /\
  (do state <- get_checkpoint_state; restore_from_checkpoint state) self
    = Returns tt self /\
  (do state <- get_checkpoint_state;
   do _ <- restore_from_checkpoint state;
   next_minibatch fuel num_samples number_of_workers worker_rank) self
    = next_minibatch fuel num_samples number_of_workers worker_rank self.
Proof.
  assert (Hr : restore_from_checkpoint
                 {[ "next_seq_idx"%string := next_seq_idx self ]} self
               = Returns tt self).
  { unfold restore_from_checkpoint, bind. rewrite lookup_singleton_eq. simpl.
    unfold assign_next_seq_idx. by rewrite set_next_seq_idx_same. }
  split; [done |]. split.
  - unfold bind at 1. unfold get_checkpoint_state, bind, attr, ret. exact Hr.
  - unfold bind at 1. unfold get_checkpoint_state at 1. unfold bind at 1.
    unfold attr, ret. unfold bind at 1. by rewrite Hr.
Qed.

(** C4, as the code has it.  [restore_from_checkpoint] checks no range: on
    a state holding a cursor value it returns and makes that value the
    cursor, whatever the value; it raises ([KeyError]) only on a state
    without the entry, and the object is then as before. *)
Theorem restore_from_checkpoint_unchecked (state : gmap string Z) (idx : Z) self :
  restore_from_checkpoint (<[ "next_seq_idx"%string := idx ]> state) self
    = Returns tt (set_next_seq_idx idx self) /\
  restore_from_checkpoint (delete "next_seq_idx"%string state) self
    = Raises KeyError self.
Proof.
  unfold restore_from_checkpoint, bind.
  by rewrite lookup_insert_eq, lookup_delete_eq.
Qed.

(** ** Selection of the current sequence *)

Lemma select_seq_id_seqZ (n : Z) self :
  sequences self = seqZ 0 n -> 0 <= next_seq_idx self < n ->
  select_seq_id self = Returns (next_seq_idx self) self.
Proof.
  intros Hs Hi. unfold select_seq_id, bind, attr. rewrite Hs.
  rewrite (getitem_seqZ n _ Hi). simpl. by rewrite (getitem_seqZ n _ Hi).
Qed.

End Properties.

(** C10.  The current sequence is [self.sequences[self.sequences[i]]] for
    the cursor [i].  When the sorted identifiers are exactly [0 .. n-1] this
    is the identifier at the cursor.  Otherwise it need not be: with the one
    identifier 5 the second lookup is out of range and the call raises
    [IndexError], and with the identifiers 1 and 2 the sequence selected at
    cursor 0 is 2 while the identifier at the cursor is 1. *)
Theorem select_seq_id_double_indexing :
  (forall (float32 : Type) (n : Z) (self : MyMultiWorkerDataSource float32),
     sequences self = seqZ 0 n -> 0 <= next_seq_idx self < n ->
     select_seq_id self = Returns (next_seq_idx self) self /\
     getitem (sequences self) (next_seq_idx self) = Some (next_seq_idx self)) /\
  (sequences lone_five = [5] /\
   select_seq_id lone_five = Raises IndexError lone_five /\
   next_minibatch 1 7 1 0 lone_five = Raises IndexError lone_five) /\
  (sequences one_two = [1; 2] /\ next_seq_idx one_two = 0 /\
   select_seq_id one_two = Returns 2 one_two).
Proof.
  split; [| split].
  - intros float32 n self Hs Hi. split; [by apply (select_seq_id_seqZ n) |].
    rewrite Hs. by apply getitem_seqZ.
  - split; [| split]; vm_compute; reflexivity.
  - split; [| split]; vm_compute; reflexivity.
Qed.

Lemma select_seq_id_double_indexing_witness :
  select_seq_id mbs = Returns 0 mbs /\ getitem (sequences mbs) 0 = Some 0.
Proof.
  destruct select_seq_id_double_indexing as [H _].
  apply (H Z 4 mbs); [vm_compute; reflexivity | vm_compute; split; [discriminate | reflexivity]].
Defined.

(** C4, as stated, fails: on the example source, which has 4 sequences, a
    checkpoint state with the cursor 99 is restored without an error and
    the cursor becomes 99. *)
Lemma restore_out_of_range_accepted :
  len (sequences mbs) = 4 /\
  ~ (0 <= 99 <= len (sequences mbs)) /\
  restore_from_checkpoint {[ "next_seq_idx"%string := 99 ]} mbs
    = Returns tt (set_next_seq_idx 99 mbs) /\
  next_seq_idx
    (final_self (restore_from_checkpoint {[ "next_seq_idx"%string := 99 ]} mbs))
    <> next_seq_idx mbs.
Proof.
  split; [vm_compute; reflexivity |]. split.
  - intros [_ H]. vm_compute in H. by apply H.
  - split; [vm_compute; reflexivity | vm_compute; discriminate].
Qed.

(** ** The example source *)

Lemma mbs_constructed :
  __init__ small_int_float32 sample_data 1000 5 = inr mbs /\
  sequences mbs = [0; 1; 2; 3] /\ next_seq_idx mbs = 0.
Proof. split; [| split]; vm_compute; reflexivity. Qed.

(** C6.  On the example text with [l_dim = 5], one worker and 7 samples
    asked for, the first call after construction returns the sequences 0
    and 1, 7 feature samples and 2 label samples, with the sweep flag
    unset, and leaves the cursor at 2.  Two rounds of the loop are needed;
    any larger budget gives the same. *)
Theorem first_batch_of_the_example (f_dim : Z) (extra : nat) :
  sequences (build sample_data f_dim 5) = [0; 1; 2; 3] /\
  next_seq_idx (build sample_data f_dim 5) = 0 /\
  features_of (build sample_data f_dim 5) <$> [0; 1]
    = [[560; 0; 0]; [560; 0; 0; 424]] /\
  next_minibatch (2 + extra) 7 1 0 (build sample_data f_dim 5)
  = Returns
      ({| md_value := Value_one_hot [[560; 0; 0]; [560; 0; 0; 424]] f_dim;
          md_num_sequences := 2; md_num_samples := 7; md_sweep_end := false |},
       {| md_value := Value_dense [[[1; 0; 0; 0; 0]]; [[0; 1; 0; 0; 0]]];
          md_num_sequences := 2; md_num_samples := 2; md_sweep_end := false |})
      (set_next_seq_idx 2 (build sample_data f_dim 5)).
Proof.
  split; [| split; [| split]]; try (vm_compute; reflexivity).
  rewrite next_minibatch_more_fuel; [vm_compute; reflexivity |].
  vm_compute. tauto.
Qed.

(** C1 on the code.  Two workers, the worker of rank 1, the example source
    at cursor 0: sequence 0 belongs to the other worker.  The round that
    meets it adds nothing to the batch and leaves the cursor at 0, so every
    later round meets it again: the call is still looping whatever the
    number of rounds, with the cursor where it was. *)
Theorem skipped_sequence_is_not_passed (fuel : nat) :
  loop_body 7 2 1 initial_locals mbs = Returns (Continue, initial_locals) mbs /\
  next_minibatch fuel 7 2 1 mbs = OutOfFuel mbs.
Proof.
  assert (Hb : loop_body 7 2 1 initial_locals mbs
               = Returns (Continue, initial_locals) mbs)
    by (vm_compute; reflexivity).
  split; [done |].
  unfold next_minibatch, _prepare_nextbatch, bind.
  by rewrite (while_loop_stuck fuel 7 2 1 initial_locals mbs eq_refl Hb).
Qed.

(** C2 on the code.  Two workers, the worker of rank 0, 7 samples asked for,
    the example source with its 4 sequences: the call takes sequence 0,
    meets sequence 1 of the other worker and loops on it for ever.  It
    neither returns a batch nor raises. *)
Theorem call_blocked_by_another_workers_sequence (fuel : nat) :
  sequences mbs <> [] /\
  still_running (next_minibatch fuel 7 2 0 mbs) /\
  next_minibatch (S fuel) 7 2 0 mbs = OutOfFuel (set_next_seq_idx 1 mbs).
Proof.
  set (v1 := taken initial_locals [560; 0; 0] [[1; 0; 0; 0; 0]]
             : locals Z).
  assert (H0 : loop_body 7 2 0 initial_locals mbs
               = Returns (Continue, v1) (set_next_seq_idx 1 mbs))
    by (vm_compute; reflexivity).
  assert (H1 : loop_body 7 2 0 v1 (set_next_seq_idx 1 mbs)
               = Returns (Continue, v1) (set_next_seq_idx 1 mbs))
    by (vm_compute; reflexivity).
  assert (Hs : forall k, next_minibatch (S k) 7 2 0 mbs
                         = OutOfFuel (set_next_seq_idx 1 mbs)).
  { intros k. unfold next_minibatch, _prepare_nextbatch, bind.
    rewrite while_loop_S. change (loop_test 7 initial_locals) with true.
    cbv iota. rewrite H0.
    by rewrite (while_loop_stuck k 7 2 0 v1 _ eq_refl H1). }
  split; [vm_compute; discriminate |]. split; [| apply Hs].
  destruct fuel as [|k]; [vm_compute; exact I | rewrite Hs; exact I].
Qed.

(** C3, as stated, fails: with 20 samples asked for, the first call on the
    example source is the first with the sweep flag set, and it returns the
    sequences 0, 1, 2, 3 and then 0 again, not each sequence once. *)
Lemma sweep_returns_a_sequence_twice :
  next_seq_idx mbs = 0 /\ sequences mbs = [0; 1; 2; 3] /\
  until_sweep_end 1 6 20 1 0 mbs
  = Returns
      [({| md_value :=
             Value_one_hot (features_of mbs <$> [0; 1; 2; 3; 0]) 1000;
           md_num_sequences := 5; md_num_samples := 17; md_sweep_end := true |},
        {| md_value :=
             Value_dense [[[1; 0; 0; 0; 0]]; [[0; 1; 0; 0; 0]]; [[0; 0; 1; 0; 0]];
                          [[0; 0; 0; 1; 0]]; [[1; 0; 0; 0; 0]]];
           md_num_sequences := 5; md_num_samples := 5; md_sweep_end := true |})]
      (set_next_seq_idx 1 mbs) /\
  features_of mbs <$> [0; 1; 2; 3; 0] <> features_of mbs <$> sequences mbs.
Proof.
  split; [| split; [| split]]; try (vm_compute; reflexivity).
  vm_compute. discriminate.
Qed.

Lemma sweep_of_a_single_worker_witness :
  exists before last self' (c1 : Z) (m : nat),
    until_sweep_end 5 7 7 1 0 mbs = Returns (before ++ [last]) self' /\
    Forall (fun b => md_sweep_end (fst b) = false) before /\
    md_sweep_end (fst last) = true /\
    0 <= c1 <= 4 /\
    concat (batch_features <$> before) = features_of mbs <$> seqZ 0 c1 /\
    batch_features last = features_of mbs <$> (seqZ c1 (4 - c1) ++ cyclic 4 m) /\
    concat (batch_features <$> (before ++ [last]))
      = (features_of mbs <$> sequences mbs) ++ (features_of mbs <$> cyclic 4 m) /\
    concat (batch_labels <$> before) = label_array_of mbs <$> seqZ 0 c1 /\
    batch_labels last = label_array_of mbs <$> (seqZ c1 (4 - c1) ++ cyclic 4 m) /\
    concat (batch_labels <$> (before ++ [last]))
      = (label_array_of mbs <$> sequences mbs)
        ++ (label_array_of mbs <$> cyclic 4 m).
Proof.
  apply (sweep_of_a_single_worker 4 7 5 7 mbs [5%nat]);
    [lia | lia | vm_compute; reflexivity | vm_compute; reflexivity | | lia | lia].
  intros i Hi.
  assert (i = 0 \/ i = 1 \/ i = 2 \/ i = 3) as [->|[->|[->| ->]]] by lia;
    eexists; eexists;
    (split; [vm_compute; reflexivity
            | split; [vm_compute; reflexivity
                     | split; [discriminate | vm_compute; reflexivity]]]).
Defined.

(** C5, as stated, fails: in this text sequence 1 has no label.  The call
    takes sequence 0 and raises [KeyError] on sequence 1. *)
Lemma unlabelled_sequence_raises :
  __init__ small_int_float32
    (lines ["0 |x 1:1 |y 1 0"; "1 |x 2:1"]%string) 10 2 = inr unlabelled_second /\
  data unlabelled_second !! 1 = Some {| seq_features := [2]; seq_labels := None |} /\
  next_minibatch 5 7 1 0 unlabelled_second
  = Raises KeyError (set_next_seq_idx 1 unlabelled_second).
Proof. split; [| split]; vm_compute; reflexivity. Qed.

Lemma label_array_required_witness :
  next_minibatch 1 7 1 0 (set_next_seq_idx 1 unlabelled_second)
  = Raises KeyError (set_next_seq_idx 1 unlabelled_second).
Proof.
  destruct (label_array_required 7 1 0 (set_next_seq_idx 1 unlabelled_second)
              1 1 {| seq_features := [2]; seq_labels := None |})
    as (_ & H & _);
    [vm_compute; reflexivity | vm_compute; reflexivity | discriminate
    | reflexivity | vm_compute; reflexivity | reflexivity |].
  apply (H ltac:(lia) 0%nat).
Defined.

Lemma admission_rule_witness :
  let v := taken initial_locals [560; 0; 0] [[1; 0; 0; 0; 0]] in
  loop_body 5 1 0 v (set_next_seq_idx 1 mbs)
  = Returns (Break, v) (set_next_seq_idx 1 mbs).
Proof.
  intros v.
  destruct (admission_rule 5 1 0 v (set_next_seq_idx 1 mbs) 1 1
              {| seq_features := [560; 0; 0; 424];
                 seq_labels := Some [[0; 1; 0; 0; 0]] |} [[0; 1; 0; 0; 0]])
    as ((H & _) & _);
    [vm_compute; reflexivity | vm_compute; reflexivity | discriminate
    | reflexivity | vm_compute; reflexivity | reflexivity
    | left; discriminate | left; vm_compute; reflexivity |].
  exact H.
Defined.

(** * Further properties of the class *)

Section Rounds.

Context {float32 : Type}.

Local Abbreviation source := (MyMultiWorkerDataSource float32).

Implicit Types (self : source) (v : locals float32).

Lemma getitem_Some_lt {A : Type} (l : list A) (i : Z) (x : A) :
  getitem l i = Some x -> - len l <= i < len l.
Proof.
  unfold getitem. destruct (0 <=? i) eqn:E.
  - intros H%lookup_lt_Some. unfold len. lia.
  - destruct (- len l <=? i) eqn:E'; [| done]. intros _. lia.
Qed.

Lemma getitem_elem_of {A : Type} (l : list A) (i : Z) (x : A) :
  getitem l i = Some x -> x ∈ l.
Proof.
  unfold getitem. destruct (0 <=? i); [by apply list_elem_of_lookup_2 |].
  destruct (_ <=? _); [by apply list_elem_of_lookup_2 | done].
Qed.

(** Every round ends in one of the ways of [round_outcome]. *)
Lemma loop_body_outcome num w r v self :
  round_outcome num w r v self (loop_body num w r v self).
Proof.
  unfold loop_body. unfold bind at 1. rewrite wrap_around_eq.
  unfold bind at 1. unfold select_seq_id, bind, attr. simpl.
  destruct (getitem (sequences self) (examined self)) as [i|] eqn:Hi; simpl;
    [| by apply round_no_position].
  destruct (getitem (sequences self) i) as [seq_id|] eqn:Hs; simpl;
    [| by eapply round_no_sequence].
  unfold py_mod. destruct (w =? 0) eqn:Hw; simpl.
  { eapply round_no_workers; eauto. lia. }
  assert (w <> 0) by lia.
  destruct (seq_id mod w =? r) eqn:Hr; simpl;
    [| eapply round_skip; eauto; lia].
  assert (seq_id mod w = r) by lia.
  destruct (data self !! seq_id) as [entry|] eqn:He; simpl;
    [| by eapply round_no_entry].
  destruct (seq_labels entry) as [label_data|] eqn:Hl; simpl;
    [| by eapply round_no_labels].
  destruct (truthy (features v) || truthy (labels v)) eqn:Hne; simpl.
  - destruct (_ >? _) eqn:Hx; simpl.
    + eapply round_break; eauto.
      * destruct (features v), (labels v); simpl in Hne; try done;
          by (left + right).
      * apply Z.gtb_lt in Hx. lia.
    + rewrite set_next_seq_idx_twice. eapply round_take; eauto. right.
      assert (~ (num < Z.max (f_sample_count v + len (seq_features entry))
                             (l_sample_count v + len label_data))).
      { intros Hlt. apply Z.gtb_lt in Hlt. congruence. }
      lia.
  - rewrite set_next_seq_idx_twice. eapply round_take; eauto. left.
    destruct (features v), (labels v); simpl in Hne; done.
Qed.

(** A property of the locals and the object that every returning round
    keeps holds when the loop returns; and the loop returns either because
    its test fails or because its last round left it. *)
Lemma while_loop_Returns_inv (P : locals float32 -> source -> Prop)
  fuel num w r v self v' self' :
  (forall v self fl v1 s1,
     P v self -> loop_test num v = true ->
     loop_body num w r v self = Returns (fl, v1) s1 -> P v1 s1) ->
  P v self ->
  while_loop fuel num w r v self = Returns v' self' ->
  P v' self' /\
  (loop_test num v' = false \/
   exists v0 s0, P v0 s0 /\ loop_test num v0 = true /\
     loop_body num w r v0 s0 = Returns (Break, v') self').
Proof.
  intros Hstep. revert v self. induction fuel as [|fuel IH]; intros v self HP.
  - rewrite while_loop_O. destruct (loop_test num v) eqn:Ht; [done |].
    intros [= <- <-]. auto.
  - rewrite while_loop_S. destruct (loop_test num v) eqn:Ht.
    + destruct (loop_body num w r v self) as [[[] v1] s1|e s1|s1] eqn:Hb;
        try done.
      * apply IH. by eapply Hstep.
      * intros [= <- <-]. split; [by eapply Hstep |]. right. eauto.
    + intros [= <- <-]. auto.
Qed.

(** A property of the object that every round keeps, however the round
    ends, holds for the object the loop leaves, however the loop ends. *)
Lemma while_loop_final_inv (S : source -> Prop) fuel num w r v self :
  (forall v self, S self -> S (final_self (loop_body num w r v self))) ->
  S self -> S (final_self (while_loop fuel num w r v self)).
Proof.
  intros Hstep. revert v self. induction fuel as [|fuel IH]; intros v self HS.
  - rewrite while_loop_O. by destruct (loop_test num v).
  - rewrite while_loop_S. destruct (loop_test num v); [| done].
    specialize (Hstep v self HS).
    destruct (loop_body num w r v self) as [[[] v1] s1|e s1|s1]; try done.
    by apply IH.
Qed.

Lemma next_minibatch_Returns fuel num w r self b self' :
  next_minibatch fuel num w r self = Returns b self' ->
  exists v',
    while_loop fuel num w r initial_locals self = Returns v' self' /\
    b = batch_of self' v'.
Proof.
  rewrite next_minibatch_eq.
  destruct (while_loop _ _ _ _ _ _) as [v' s1|e s1|s1]; try done.
  destruct (asarray_stack (labels v')); [| done].
  intros [= <- <-]. eauto.
Qed.

Lemma next_minibatch_final_self fuel num w r self :
  final_self (next_minibatch fuel num w r self)
  = final_self (while_loop fuel num w r initial_locals self).
Proof.
  rewrite next_minibatch_eq.
  destruct (while_loop _ _ _ _ _ _) as [v' s1|e s1|s1]; try done.
  by destruct (asarray_stack (labels v')).
Qed.

(** ** The size of a batch *)

(** X1.  A batch of two or more sequences holds at most [num_samples]
    samples in the features stream and in the labels stream: only a batch
    of a single sequence can be larger than what was asked for. *)
Theorem batch_of_several_within_request (fuel : nat)
  (num_samples number_of_workers worker_rank : Z) self b self' :
  next_minibatch fuel num_samples number_of_workers worker_rank self
    = Returns b self' ->
  2 <= md_num_sequences (fst b) ->
  md_num_samples (fst b) <= num_samples /\ md_num_samples (snd b) <= num_samples.
Proof.
  intros (v' & Hw & ->)%next_minibatch_Returns Hseqs. simpl in *.
  pose (P := fun (v : locals float32) (_ : source) =>
               counted v /\
               (2 <= len (features v) ->
                f_sample_count v <= num_samples /\ l_sample_count v <= num_samples)).
  assert (HP : P v' self'); [| by apply HP].
  eapply (while_loop_Returns_inv P); [| | exact Hw];
    [| split; [apply counted_initial | unfold len; simpl; lia]].
  clear. intros v self fl v1 s1 [Hc Hv] _ Hb.
  pose proof (loop_body_outcome num_samples number_of_workers worker_rank v self)
    as Ho.
  rewrite Hb in Ho. inversion Ho; subst.
  - split; [by apply counted_wrapped | done].
  - split; [by apply counted_wrapped | done].
  - split; [by apply counted_admitted, counted_wrapped |].
    unfold taken; simpl. rewrite len_app.
    match goal with H : _ \/ _ |- _ => destruct H as [[Hf Hl]|[Hf Hl]] end.
    + rewrite Hf. unfold len; simpl. lia.
    + intros _. done.
Qed.

(** X2.  A call that returns stopped for one of two reasons: a stream
    holds at least [num_samples] samples, or the next sequence of this
    worker, the one the cursor is left on, would take a stream above
    [num_samples].  The loop never stops while the next sequence still
    fits. *)
Theorem batch_is_filled (fuel : nat)
  (num_samples number_of_workers worker_rank : Z) self b self' :
  next_minibatch fuel num_samples number_of_workers worker_rank self
    = Returns b self' ->
  num_samples <= md_num_samples (fst b) \/
  num_samples <= md_num_samples (snd b) \/
  exists (i seq_id : Z) (entry : seq_data float32) (label_data : ndarray float32),
    getitem (sequences self') (next_seq_idx self') = Some i /\
    getitem (sequences self') i = Some seq_id /\
    seq_id mod number_of_workers = worker_rank /\
    data self' !! seq_id = Some entry /\ seq_labels entry = Some label_data /\
    (num_samples < md_num_samples (fst b) + len (seq_features entry) \/
     num_samples < md_num_samples (snd b) + len label_data).
Proof.
  intros (v' & Hw & ->)%next_minibatch_Returns. simpl.
  destruct (while_loop_Returns_inv (fun _ _ => True) fuel num_samples
              number_of_workers worker_rank initial_locals self v' self')
    as [_ [Ht|(v0 & s0 & _ & _ & Hb)]]; try done.
  - unfold loop_test in Ht. apply Z.ltb_ge in Ht. lia.
  - right; right.
    pose proof (loop_body_outcome num_samples number_of_workers worker_rank v0 s0)
      as Ho.
    rewrite Hb in Ho. inversion Ho; subst. simpl. eauto 10.
Qed.

(** ** The cursor *)

(** X3.  A batch that comes back without the sweep flag moved the cursor
    forward by exactly the number of its sequences; a batch that comes back
    with the flag leaves the cursor on a position of the list or at its
    end, wherever the call started. *)
Theorem cursor_after_a_batch (fuel : nat)
  (num_samples number_of_workers worker_rank : Z) self b self' :
  next_minibatch fuel num_samples number_of_workers worker_rank self
    = Returns b self' ->
  (md_sweep_end (fst b) = false ->
   next_seq_idx self' = next_seq_idx self + md_num_sequences (fst b)) /\
  (md_sweep_end (fst b) = true -> cursor_in_range self').
Proof.
  intros (v' & Hw & ->)%next_minibatch_Returns. simpl.
  pose (P := fun (v : locals float32) (s : source) =>
               sequences s = sequences self /\
               (sweep_end v = false ->
                next_seq_idx s = next_seq_idx self + len (features v)) /\
               (sweep_end v = true -> cursor_in_range s)).
  assert (HP : P v' self'); [| destruct HP as (_ & ? & ?); done].
  eapply (while_loop_Returns_inv P); [| | exact Hw];
    [| split; [done | split; [unfold len; simpl; lia | done]]].
  clear. intros v s fl v1 s1 (Hs & Hno & Hyes) _ Hb.
  pose proof (loop_body_outcome num_samples number_of_workers worker_rank v s)
    as Ho.
  rewrite Hb in Ho.
  assert (HPw : P (wrapped v s) (set_next_seq_idx (examined s) s)).
  { unfold P, cursor_in_range, wrapped, examined. simpl.
    split; [done |]. unfold cursor_in_range in Hyes.
    destruct (next_seq_idx s =? len (sequences s)) eqn:E.
    - rewrite orb_true_r. split; [done |]. intros _. unfold len. lia.
    - rewrite orb_false_r. split; [done |]. intros Hf. by apply Hyes. }
  inversion Ho; subst; try exact HPw.
  destruct HPw as (_ & Hno' & Hyes').
  match goal with Hi : getitem _ (examined s) = Some _ |- _ =>
    apply getitem_Some_lt in Hi as Hlt end.
  unfold P, cursor_in_range in *. simpl in *.
  split; [done |]. rewrite len_app. split.
  - intros Hf. rewrite (Hno' Hf). unfold len. simpl. lia.
  - intros Hf. specialize (Hyes' Hf). lia.
Qed.

(** X4.  A cursor that is a position of the list or its end stays one
    through a call, however the call ends: with a batch, with an exception,
    or still looping after any number of rounds. *)
Theorem next_minibatch_keeps_cursor_in_range (fuel : nat)
  (num_samples number_of_workers worker_rank : Z) self :
  cursor_in_range self ->
  cursor_in_range
    (final_self (next_minibatch fuel num_samples number_of_workers worker_rank self)).
Proof.
  intros Hin. rewrite next_minibatch_final_self.
  apply while_loop_final_inv; [| done].
  clear. intros v s Hin.
  pose proof (loop_body_outcome num_samples number_of_workers worker_rank v s)
    as Ho.
  assert (Hx : 0 <= examined s <= len (sequences s)).
  { unfold cursor_in_range in Hin. unfold examined.
    destruct (_ =? _); lia. }
  inversion Ho; subst; unfold cursor_in_range; simpl; try done.
  match goal with Hi : getitem _ (examined s) = Some _ |- _ =>
    apply getitem_Some_lt in Hi end.
  lia.
Qed.

(** ** What a batch holds *)

(** X5.  The sequences of a batch are sequences of the calling worker:
    there are identifiers of the list, each with remainder [worker_rank]
    modulo [number_of_workers], whose entries of [self.data] give, item by
    item and in order, the feature lists of the features stream and the
    label arrays of the labels stream. *)
Theorem batch_belongs_to_worker (fuel : nat)
  (num_samples number_of_workers worker_rank : Z) self b self' :
  next_minibatch fuel num_samples number_of_workers worker_rank self
    = Returns b self' ->
  exists (ids : list Z) (entries : list (seq_data float32)),
    Forall (fun id => id ∈ sequences self /\ number_of_workers <> 0 /\
                      id mod number_of_workers = worker_rank) ids /\
    Forall2 (fun id entry => data self !! id = Some entry) ids entries /\
    batch_features b = seq_features <$> entries /\
    Some <$> batch_labels b = seq_labels <$> entries.
Proof.
  intros (v' & Hw & ->)%next_minibatch_Returns.
  unfold batch_features, batch_labels, batch_of. simpl.
  pose (P := fun (v : locals float32) (s : source) =>
    sequences s = sequences self /\ data s = data self /\
    exists (ids : list Z) (entries : list (seq_data float32)),
      Forall (fun id => id ∈ sequences self /\ number_of_workers <> 0 /\
                        id mod number_of_workers = worker_rank) ids /\
      Forall2 (fun id entry => data self !! id = Some entry) ids entries /\
      features v = seq_features <$> entries /\
      Some <$> labels v = seq_labels <$> entries).
  assert (HP : P v' self'); [| by destruct HP as (_ & _ & ?)].
  eapply (while_loop_Returns_inv P); [| | exact Hw];
    [| split; [done | split; [done |]]; exists [], []; by repeat split].
  clear. intros v s fl v1 s1 (Hs & Hd & ids & entries & Hids & Hent & Hf & Hl) _ Hb.
  pose proof (loop_body_outcome num_samples number_of_workers worker_rank v s)
    as Ho.
  rewrite Hb in Ho.
  assert (HPw : P (wrapped v s) (set_next_seq_idx (examined s) s))
    by (split; [done | split; [done |]]; by exists ids, entries).
  inversion Ho; subst; try exact HPw.
  split; [done | split; [done |]].
  exists (ids ++ [seq_id]), (entries ++ [entry]). simpl.
  rewrite !fmap_app, Hf, Hl. simpl.
  split; [| split; [| split]]; try done.
  - apply Forall_app. split; [done |]. apply Forall_singleton.
    rewrite <- Hs. split; [by eapply getitem_elem_of | done].
  - apply Forall2_app; [done |]. constructor; [by rewrite <- Hd | constructor].
  - match goal with Hlab : seq_labels entry = Some _ |- _ => by rewrite Hlab end.
Qed.

(** ** Calls that do not return a batch *)

(** X6.  A call, or the rest of a call, whose cursor stands on a sequence of
    another worker never ends: the round leaves the cursor on that
    sequence and is repeated, whatever the number of samples asked for. *)
Theorem foreign_sequence_blocks_the_call (fuel : nat)
  (num_samples number_of_workers worker_rank : Z) v self (i seq_id : Z) :
  getitem (sequences self) (examined self) = Some i ->
  getitem (sequences self) i = Some seq_id ->
  number_of_workers <> 0 -> seq_id mod number_of_workers <> worker_rank ->
  (loop_test num_samples v = true ->
   still_running (while_loop fuel num_samples number_of_workers worker_rank v self) /\
   next_seq_idx
     (final_self (while_loop (S fuel) num_samples number_of_workers worker_rank v self))
   = examined self) /\
  (0 < num_samples ->
   still_running (next_minibatch fuel num_samples number_of_workers worker_rank self)).
Proof.
  intros Hi Hs Hw Hr.
  assert (Hm : py_mod seq_id number_of_workers
               = Some (seq_id mod number_of_workers)).
  { unfold py_mod. destruct (_ =? 0) eqn:E; [lia | done]. }
  set (s1 := set_next_seq_idx (examined self) self).
  assert (Hx : examined s1 = examined self).
  { apply getitem_Some_lt in Hi. unfold examined at 1. simpl.
    destruct (examined self =? len (sequences self)) eqn:E; [lia | done]. }
  assert (Hb0 : forall v, loop_body num_samples number_of_workers worker_rank v self
                     = Returns (Continue, wrapped v self) s1).
  { intros v0. by eapply loop_body_skip. }
  assert (Hb1 : forall v, loop_body num_samples number_of_workers worker_rank
                       (wrapped v self) s1
                     = Returns (Continue, wrapped v self) s1).
  { intros v0.
    assert (Hi1 : getitem (sequences s1) (examined s1) = Some i)
      by (by rewrite Hx).
    rewrite (loop_body_skip num_samples number_of_workers worker_rank
               (wrapped v0 self) s1 i seq_id Hi1 Hs _ Hm Hr).
    rewrite Hx. f_equal. f_equal.
    unfold wrapped. simpl. f_equal. apply getitem_Some_lt in Hi.
    destruct (examined self =? len (sequences self)) eqn:E; [lia |].
    by rewrite orb_false_r. }
  assert (Hrun : forall fuel v, loop_test num_samples v = true ->
            while_loop (S fuel) num_samples number_of_workers worker_rank v self
            = OutOfFuel s1).
  { intros k v0 Ht. rewrite while_loop_S, Ht, Hb0.
    by apply while_loop_stuck. }
  assert (Hall : forall v, loop_test num_samples v = true ->
            still_running
              (while_loop fuel num_samples number_of_workers worker_rank v self)).
  { intros v0 Ht. destruct fuel as [|k]; [by rewrite while_loop_O, Ht |].
    by rewrite Hrun. }
  split.
  - intros Ht. split; [by apply Hall |]. by rewrite Hrun.
  - intros Hnum. unfold next_minibatch, _prepare_nextbatch, bind.
    assert (Ht : loop_test num_samples (initial_locals : locals float32) = true)
      by (unfold loop_test; simpl; lia).
    specialize (Hall initial_locals Ht).
    by destruct (while_loop _ _ _ _ _ _).
Qed.

(** On a source without sequences a call that asks for a positive number of
    samples raises [IndexError] in its first round, before the worker
    arguments are looked at. *)
Lemma empty_index_raises (fuel : nat)
  (num_samples number_of_workers worker_rank : Z) self :
  sequences self = [] -> 0 < num_samples ->
  next_minibatch (S fuel) num_samples number_of_workers worker_rank self
  = Raises IndexError (set_next_seq_idx (examined self) self).
Proof.
  intros Hs Hnum.
  pose proof (loop_body_outcome num_samples number_of_workers worker_rank
                initial_locals self) as Ho.
  assert (Hg : forall i, getitem (sequences self) i = None).
  { intros i. rewrite Hs. unfold getitem, len. simpl.
    destruct (0 <=? i); [done |]. by destruct (_ <=? _). }
  unfold next_minibatch, _prepare_nextbatch, bind. rewrite while_loop_S.
  assert (Ht : loop_test num_samples (initial_locals : locals float32) = true)
    by (unfold loop_test; simpl; lia).
  rewrite Ht. inversion Ho; subst; try done;
    match goal with H : getitem _ _ = Some _ |- _ => by rewrite Hg in H end.
Qed.


(** X9.  With [number_of_workers = 0] a call that asks for a positive
    number of samples raises [ZeroDivisionError] as soon as its first round
    has found a sequence. *)
Theorem zero_workers_raises (fuel : nat) (num_samples worker_rank : Z)
  self (i seq_id : Z) :
  getitem (sequences self) (examined self) = Some i ->
  getitem (sequences self) i = Some seq_id ->
  0 < num_samples ->
  next_minibatch (S fuel) num_samples 0 worker_rank self
  = Raises ZeroDivisionError (set_next_seq_idx (examined self) self).
Proof.
  intros Hi Hs Hnum.
  pose proof (loop_body_outcome num_samples 0 worker_rank initial_locals self)
    as Ho.
  unfold next_minibatch, _prepare_nextbatch, bind. rewrite while_loop_S.
  assert (Ht : loop_test num_samples (initial_locals : locals float32) = true)
    by (unfold loop_test; simpl; lia).
  rewrite Ht. inversion Ho; subst; try done; congruence.
Qed.

End Rounds.

(** * Further properties of ingestion and construction *)

Section Ingestion.

Context {float32 : Type}.
Variable to_float32 : string -> option float32.

Local Abbreviation item := (Z * Z * option (ndarray float32))%type.

(** The effect of one parsed line on the dictionary. *)
Lemma prepare_line_parse (d : gmap Z (seq_data float32)) (line : string) :
  prepare_line to_float32 d line
  = if blank line then inr d
    else match parse_line to_float32 line with
         | inl e => inl e
         | inr it => inr (<[it.1.1 := default {| seq_features := []; seq_labels := None |}
                                        (entry_of it.1.1 [it] (d !! it.1.1))]> d)
         end.
Proof.
  unfold prepare_line, parse_line, blank.
  destruct (String.eqb _ _); [done |].
  destruct (split1 _ _) as [|seq_id [|rest [|]]]; try done.
  destruct (int (strip seq_id)) as [k|]; [| done].
  destruct (getitem (split " " _) 1) as [feature|]; [| done].
  destruct (int _) as [vocab_idx|]; [| done].
  assert (Hv : forall lab : option (ndarray float32),
            vocab_of k [(k, vocab_idx, lab)] = [vocab_idx]).
  { intros lab. unfold vocab_of. simpl. by rewrite decide_True. }
  destruct (len _ =? 2).
  - destruct (asarray_row _ _) as [labels|]; [| done]. simpl. f_equal.
    unfold entry_of. rewrite Hv. simpl. unfold labels_of. simpl.
    rewrite decide_True by done. simpl.
    apply map_eq. intros j. destruct (decide (j = k)) as [->|Hne].
    + rewrite lookup_insert_eq, !lookup_alter_eq.
      destruct (d !! k) as [e|] eqn:Hk; simpl.
      * by rewrite Hk.
      * by rewrite lookup_insert_eq.
    + rewrite lookup_insert_ne, !lookup_alter_ne by done.
      destruct (d !! k); [done |]. by rewrite lookup_insert_ne.
  - simpl. f_equal. unfold entry_of. rewrite Hv. simpl. unfold labels_of. simpl.
    rewrite decide_True by done. simpl.
    apply map_eq. intros j. destruct (decide (j = k)) as [->|Hne].
    + rewrite lookup_insert_eq, !lookup_alter_eq.
      destruct (d !! k) as [e|] eqn:Hk; simpl.
      * by rewrite Hk.
      * by rewrite lookup_insert_eq.
    + rewrite lookup_insert_ne, !lookup_alter_ne by done.
      destruct (d !! k); [done |]. by rewrite lookup_insert_ne.
Qed.

Lemma labels_of_nil (seq_id : Z) (items : list item) :
  vocab_of seq_id items = [] -> labels_of seq_id items = [].
Proof.
  unfold vocab_of, labels_of. induction items as [|it items IH]; [done |].
  simpl. destruct (decide (it.1.1 = seq_id)); simpl; [done | exact IH].
Qed.

Lemma vocab_of_cons (seq_id k vocab_idx : Z) (lab : option (ndarray float32))
  (items : list item) :
  vocab_of seq_id ((k, vocab_idx, lab) :: items)
  = if decide (k = seq_id) then vocab_idx :: vocab_of seq_id items
    else vocab_of seq_id items.
Proof. unfold vocab_of. simpl. by destruct (decide (k = seq_id)). Qed.

Lemma labels_of_cons (seq_id k vocab_idx : Z) (lab : option (ndarray float32))
  (items : list item) :
  labels_of seq_id ((k, vocab_idx, lab) :: items)
  = if decide (k = seq_id) then option_list lab ++ labels_of seq_id items
    else labels_of seq_id items.
Proof.
  unfold labels_of. simpl. destruct (decide (k = seq_id)); [| done].
  by destruct lab.
Qed.

(** The entry made by a line and then by further lines is the entry made
    by all of them. *)
Lemma entry_of_cons (seq_id : Z) (it : item) (items : list item)
  (d : gmap Z (seq_data float32)) :
  entry_of seq_id items
    ((<[it.1.1 := default {| seq_features := []; seq_labels := None |}
                    (entry_of it.1.1 [it] (d !! it.1.1))]> d) !! seq_id)
  = entry_of seq_id (it :: items) (d !! seq_id).
Proof.
  destruct it as [[k vocab_idx] lab]. simpl.
  destruct (decide (seq_id = k)) as [->|Hne].
  - rewrite lookup_insert_eq.
    assert (Hone : entry_of k [(k, vocab_idx, lab)] (d !! k)
                   = Some {| seq_features :=
                               from_option seq_features [] (d !! k) ++ [vocab_idx];
                             seq_labels :=
                               match lab with
                               | Some labels => Some labels
                               | None => d !! k ≫= seq_labels
                               end |}).
    { unfold entry_of. rewrite vocab_of_cons, labels_of_cons.
      rewrite !(decide_True (P:=k = k)) by done. rewrite decide_False by done.
      unfold vocab_of, labels_of. simpl. rewrite app_nil_r. by destruct lab. }
    rewrite Hone. simpl. unfold entry_of.
    rewrite vocab_of_cons, labels_of_cons. rewrite !(decide_True (P:=k = k)) by done.
    rewrite (decide_False (P:=vocab_idx :: vocab_of k items = [])) by done.
    destruct (decide (vocab_of k items = [])) as [Hnil|Hcons]; simpl.
    + rewrite Hnil, (labels_of_nil k items Hnil), app_nil_r. by destruct lab.
    + rewrite <- app_assoc. simpl. f_equal. f_equal.
      destruct lab as [labels|]; simpl; [| done].
      rewrite last_cons. by destruct (last (labels_of k items)).
  - rewrite lookup_insert_ne by done. unfold entry_of.
    rewrite vocab_of_cons, labels_of_cons.
    by rewrite !(decide_False (P:=k = seq_id)) by congruence.
Qed.

Lemma prepare_lines_parse (ls : list string) (d : gmap Z (seq_data float32)) :
  match prepare_lines to_float32 d ls with
  | inl e => parse_lines to_float32 ls = inl e
  | inr d' =>
      exists items, parse_lines to_float32 ls = inr items /\
        forall seq_id, d' !! seq_id = entry_of seq_id items (d !! seq_id)
  end.
Proof.
  revert d. induction ls as [|line ls IH]; intros d; simpl.
  - exists []. by split.
  - rewrite prepare_line_parse. destruct (blank line); [apply IH |].
    destruct (parse_line to_float32 line) as [e|it]; [done |].
    specialize (IH (<[it.1.1 := default {| seq_features := []; seq_labels := None |}
                                   (entry_of it.1.1 [it] (d !! it.1.1))]> d)).
    destruct (prepare_lines _ _ ls) as [e|d'].
    + by rewrite IH.
    + destruct IH as (items & -> & Hd'). exists (it :: items). split; [done |].
      intros seq_id. rewrite Hd'. apply entry_of_cons.
Qed.

(** X10.  What [_prepare_data] stores.  The non-blank lines of the text are
    parsed in order, and the first line that cannot be parsed decides the
    exception; the lines after it are not looked at.  When all are parsed,
    a sequence identifier has an entry exactly when some line carries it;
    the features of the entry are the vocabulary indices of its lines in
    the order of the text, and its label array is that of its last line
    with a label field, if any. *)
Theorem prepare_data_collects_lines (sample_data : string) :
  match _prepare_data to_float32 sample_data with
  | inl e => parse_lines to_float32 (split "010" sample_data) = inl e
  | inr d =>
      exists items,
        parse_lines to_float32 (split "010" sample_data) = inr items /\
        forall seq_id,
          d !! seq_id
          = if decide (vocab_of seq_id items = []) then None
            else Some {| seq_features := vocab_of seq_id items;
                         seq_labels := last (labels_of seq_id items) |}
  end.
Proof.
  unfold _prepare_data.
  pose proof (prepare_lines_parse (split "010" sample_data) ∅) as H.
  destruct (prepare_lines _ _ _) as [e|d]; [done |].
  destruct H as (items & Hp & Hd). exists items. split; [done |].
  intros seq_id. rewrite Hd, lookup_empty. unfold entry_of.
  destruct (decide _); [done |]. simpl. f_equal. f_equal.
  by destruct (last _).
Qed.

(** ** Texts that cannot be ingested, and texts without lines *)

Lemma occurs_lstrip (c : ascii) (s : string) :
  occurs c s = false -> occurs c (lstrip s) = false.
Proof.
  unfold lstrip. induction s as [|c' s IH]; [done |]. simpl.
  intros [Hc Hs]%orb_false_iff. destruct (is_whitespace c'); [by apply IH |].
  simpl. by rewrite Hc, Hs.
Qed.

Lemma occurs_rstrip (c : ascii) (s : string) :
  occurs c s = false -> occurs c (rstrip s) = false.
Proof.
  unfold rstrip. induction s as [|c' s IH]; [done |]. simpl.
  intros [Hc Hs]%orb_false_iff. specialize (IH Hs).
  destruct (rstrip_of is_whitespace s) as [|c'' r]; simpl.
  - destruct (is_whitespace c'); [done |]. simpl. by rewrite Hc.
  - simpl in IH. by rewrite Hc, IH.
Qed.

Lemma split1_absent (sep : ascii) (s : string) :
  occurs sep s = false -> split1 sep s = [s].
Proof.
  induction s as [|c s IH]; [done |]. simpl.
  intros [Hc Hs]%orb_false_iff. by rewrite Hc, (IH Hs).
Qed.

Lemma prepare_line_without_bar (d : gmap Z (seq_data float32)) (line : string) :
  blank line = false -> occurs "|" line = false ->
  prepare_line to_float32 d line = inl ValueError.
Proof.
  intros Hb Hbar. unfold prepare_line. unfold blank in Hb. rewrite Hb.
  rewrite split1_absent; [done |]. unfold strip.
  by apply occurs_rstrip, occurs_lstrip.
Qed.

Lemma prepare_lines_app (d : gmap Z (seq_data float32)) (ls1 ls2 : list string) :
  prepare_lines to_float32 d (ls1 ++ ls2)
  = match prepare_lines to_float32 d ls1 with
    | inl e => inl e
    | inr d1 => prepare_lines to_float32 d1 ls2
    end.
Proof.
  revert d. induction ls1 as [|line ls1 IH]; intros d; simpl; [done |].
  destruct (prepare_line to_float32 d line); [done | apply IH].
Qed.

(** X11.  A non-blank line without the separator [|] makes the
    construction fail with [ValueError], when the lines before it were
    ingested: no object is made, whatever follows the line. *)
Theorem line_without_separator_aborts (sample_data : string) (f_dim l_dim : Z)
  (before : list string) (line : string) (after : list string)
  (items : list item) :
  split "010" sample_data = before ++ line :: after ->
  parse_lines to_float32 before = inr items ->
  blank line = false -> occurs "|" line = false ->
  __init__ to_float32 sample_data f_dim l_dim = inl ValueError.
Proof.
  intros Hsplit Hbefore Hb Hbar. unfold __init__, _prepare_data.
  rewrite Hsplit, prepare_lines_app.
  pose proof (prepare_lines_parse before ∅) as H.
  destruct (prepare_lines to_float32 ∅ before) as [e|d1]; [congruence |].
  simpl. by rewrite prepare_line_without_bar.
Qed.

Lemma prepare_lines_blank (d : gmap Z (seq_data float32)) (ls : list string) :
  forallb blank ls = true -> prepare_lines to_float32 d ls = inr d.
Proof.
  induction ls as [|line ls IH]; [done |]. simpl.
  intros [Hb Hls]%andb_true_iff. rewrite prepare_line_parse, Hb. by apply IH.
Qed.

(** X7.  A text of blank lines only, the empty text among them, is
    ingested without an error into a source with no sequence.  On that
    source every call that asks for a positive number of samples raises
    [IndexError], whatever the worker arguments, and leaves the object as
    it was. *)
Theorem blank_text_gives_empty_index (sample_data : string) (f_dim l_dim : Z) :
  forallb blank (split "010" sample_data) = true ->
  exists self,
    __init__ to_float32 sample_data f_dim l_dim = inr self /\
    data self = ∅ /\ sequences self = [] /\
    forall (fuel : nat) (num_samples number_of_workers worker_rank : Z),
      0 < num_samples ->
      next_minibatch (S fuel) num_samples number_of_workers worker_rank self
      = Raises IndexError self.
Proof.
  intros Hblank. unfold __init__, _prepare_data.
  rewrite prepare_lines_blank by done.
  eexists. split; [done |]. simpl. split; [done |]. split; [done |].
  intros fuel num w r Hnum. by rewrite empty_index_raises.
Qed.

(** ** The object after construction *)

Lemma sorted_spec {V : Type} (d : gmap Z V) :
  StronglySorted Z.lt (sorted d) /\
  forall k, k ∈ sorted d <-> is_Some (d !! k).
Proof.
  unfold sorted.
  pose proof (merge_sort_Permutation Z.le (elements (dom d))) as Hperm.
  pose proof (StronglySorted_merge_sort Z.le (elements (dom d))) as Hsorted.
  assert (Hnodup : NoDup (merge_sort Z.le (elements (dom d)))).
  { rewrite Hperm. apply NoDup_elements. }
  split.
  - revert Hsorted Hnodup. generalize (merge_sort Z.le (elements (dom d))).
    induction l as [|x l IH]; [constructor |].
    intros [Hl Hx]%StronglySorted_inv [Hnot Hnd]%NoDup_cons.
    constructor; [by apply IH |].
    apply Forall_forall. intros y Hy.
    assert (x <= y) by (by eapply Forall_forall in Hx).
    assert (x <> y) by (by intros ->). lia.
  - intros k. by rewrite Hperm, elem_of_elements, elem_of_dom.
Qed.

(** X13.  The object a successful construction leaves: the cursor at 0, the
    two dimensions as given, the list of identifiers strictly ascending and
    holding exactly the keys of [self.data], and [stream_infos] giving the
    sparse features stream with identifier 0 and shape [(f_dim,)] before
    the dense labels stream with identifier 1 and shape [(l_dim,)]. *)
Theorem init_postconditions (sample_data : string) (f_dim' l_dim' : Z)
  (self : MyMultiWorkerDataSource float32) :
  __init__ to_float32 sample_data f_dim' l_dim' = inr self ->
  next_seq_idx self = 0 /\ f_dim self = f_dim' /\ l_dim self = l_dim' /\
  StronglySorted Z.lt (sequences self) /\
  (forall seq_id, seq_id ∈ sequences self <-> is_Some (data self !! seq_id)) /\
  stream_infos self
  = Returns
      [ {| si_name := "features"; si_stream_id := 0;
           si_storage_format := "sparse"; si_dtype := np_float32;
           si_shape := [f_dim'] |};
        {| si_name := "labels"; si_stream_id := 1;
           si_storage_format := "dense"; si_dtype := np_float32;
           si_shape := [l_dim'] |} ]
      self.
Proof.
  unfold __init__. destruct (_prepare_data _ _) as [e|d]; [done |].
  intros [= <-]. simpl. destruct (sorted_spec d) as [Hs Hk].
  repeat split; try done; apply Hk.
Qed.

End Ingestion.

(** * Further properties of a source in service *)

Section Service.

Context {float32 : Type}.

Local Abbreviation source := (MyMultiWorkerDataSource float32).

Implicit Types (self : source).

Lemma uniform_labels_split (n : Z) self (sh : list nat) :
  (forall i, 0 <= i < n ->
     exists entry label_data,
       data self !! i = Some entry /\ seq_labels entry = Some label_data /\
       seq_features entry <> [] /\ shape label_data = sh) ->
  (forall i, 0 <= i < n ->
     exists entry label_data,
       data self !! i = Some entry /\ seq_labels entry = Some label_data /\
       seq_features entry <> []) /\
  (forall i entry label_data, 0 <= i < n ->
     data self !! i = Some entry -> seq_labels entry = Some label_data ->
     shape label_data = sh).
Proof.
  intros Hall. split.
  - intros i Hi. destruct (Hall i Hi) as (entry & label_data & ? & ? & ? & _).
    by exists entry, label_data.
  - intros i entry label_data Hi He Hl.
    destruct (Hall i Hi) as (entry' & label_data' & He' & Hl' & _ & Hsh).
    congruence.
Qed.

(** X14.  One worker, a source whose sorted identifiers are [0 .. n-1], each
    sequence with at least one feature and a label array, the label arrays
    all of one shape [sh], the cursor on a position of the list or at its
    end.  A call that asks for a positive number of samples returns within
    [num_samples] rounds.  Its batch holds at least one sequence: the
    features and the label arrays of the sequences at the positions walked
    from the cursor on, going back to position 0 after the last.  The cursor
    is left on a position or at the end; without the sweep flag the walk
    stayed inside the list, with it the walk reached the end. *)
Theorem single_worker_call_returns (n num_samples : Z) (fuel : nat) self
  (sh : list nat) :
  0 < n -> 0 < num_samples ->
  sequences self = seqZ 0 n -> 0 <= next_seq_idx self <= n ->
  (forall i, 0 <= i < n ->
     exists entry label_data,
       data self !! i = Some entry /\ seq_labels entry = Some label_data /\
       seq_features entry <> [] /\ shape label_data = sh) ->
  (Z.to_nat num_samples <= fuel)%nat ->
  exists b self' (k : nat),
    next_minibatch fuel num_samples 1 0 self = Returns b self' /\
    (0 < k)%nat /\
    batch_features b = features_of self <$> walked n (next_seq_idx self) k /\
    batch_labels b = label_array_of self <$> walked n (next_seq_idx self) k /\
    0 <= next_seq_idx self' <= n /\
    (md_sweep_end (fst b) = false ->
     next_seq_idx self' = next_seq_idx self + Z.of_nat k /\
     next_seq_idx self + Z.of_nat k <= n) /\
    (md_sweep_end (fst b) = true -> n <= next_seq_idx self + Z.of_nat k).
Proof.
  intros Hn Hnum Hseq Hc Hall Hfuel.
  destruct (uniform_labels_split n self sh Hall) as [Hdata Hshape].
  destruct (next_minibatch_single n num_samples self Hn Hnum Hseq Hdata
              sh Hshape fuel (next_seq_idx self) Hc Hfuel)
    as (b & c' & k & Hcall & Hb & Hbl & Hk & Hc' & Hno & Hyes).
  rewrite set_next_seq_idx_same in Hcall.
  exists b, (set_next_seq_idx c' self), k. simpl.
  split; [done |]. split; [done |]. split; [done |]. split; [done |].
  split; [done |].
  split; [| done]. intros Hflag. specialize (Hno Hflag). lia.
Qed.

(** ** The stacking of the label arrays *)

Lemma asarray_stack_shapes (arrays stacked : list (ndarray float32)) :
  asarray_stack arrays = Some stacked ->
  forall a b, a ∈ arrays -> b ∈ arrays -> shape a = shape b.
Proof.
  destruct arrays as [|a0 rest]; simpl; [by intros _ a b Ha%elem_of_nil |].
  destruct (forallb _ rest) eqn:Hall; [| done]. intros _.
  assert (Hone : forall a, a ∈ a0 :: rest -> shape a = shape a0).
  { intros a [->|Ha]%elem_of_cons; [done |].
    rewrite forallb_forall in Hall.
    apply list_elem_of_In, Hall in Ha. by apply bool_decide_eq_true in Ha. }
  intros a b Ha Hb. by rewrite (Hone a Ha), (Hone b Hb).
Qed.

(** X19.  When the label arrays a call has collected are not all of one
    shape, numpy cannot stack them and the call raises [ValueError]; the
    cursor stays where the collection left it. *)
Theorem uneven_labels_raise (fuel : nat)
  (num_samples number_of_workers worker_rank : Z) self v self'
  (a b : ndarray float32) :
  _prepare_nextbatch fuel num_samples number_of_workers worker_rank self
    = Returns v self' ->
  a ∈ labels v -> b ∈ labels v -> shape a <> shape b ->
  next_minibatch fuel num_samples number_of_workers worker_rank self
    = Raises ValueError self'.
Proof.
  intros Hw Ha Hb Hne. rewrite next_minibatch_eq.
  unfold _prepare_nextbatch in Hw. rewrite Hw.
  destruct (asarray_stack (labels v)) as [stacked|] eqn:Hs; [| done].
  destruct Hne. by apply (asarray_stack_shapes (labels v) stacked).
Qed.

(** X20.  The label arrays of a batch that a call returns are those the
    call collected, and they all have one shape. *)
Theorem returned_labels_share_a_shape (fuel : nat)
  (num_samples number_of_workers worker_rank : Z) self b self' :
  next_minibatch fuel num_samples number_of_workers worker_rank self
    = Returns b self' ->
  (exists v,
     _prepare_nextbatch fuel num_samples number_of_workers worker_rank self
       = Returns v self' /\
     batch_labels b = labels v) /\
  forall a c, a ∈ batch_labels b -> c ∈ batch_labels b -> shape a = shape c.
Proof.
  rewrite next_minibatch_eq. unfold _prepare_nextbatch.
  destruct (while_loop _ _ _ _ _ _) as [v s1|e s1|s1]; try done.
  destruct (asarray_stack (labels v)) as [stacked|] eqn:Hs; [| done].
  intros [= <- <-]. split; [by exists v |].
  by apply (asarray_stack_shapes (labels v) stacked).
Qed.

(** X12.  A call that starts with the cursor at the end of the list and
    asks for a positive number of samples reports the end of the sweep: if
    it returns, both streams of its batch carry the sweep flag. *)
Theorem call_from_the_end_flags_the_sweep (fuel : nat)
  (num_samples number_of_workers worker_rank : Z) self b self' :
  next_seq_idx self = len (sequences self) -> 0 < num_samples ->
  next_minibatch fuel num_samples number_of_workers worker_rank self
    = Returns b self' ->
  md_sweep_end (fst b) = true /\ md_sweep_end (snd b) = true.
Proof.
  intros Hend Hnum (v' & Hw & ->)%next_minibatch_Returns. simpl.
  pose (P := fun (v : locals float32) (s : source) =>
               sweep_end v = true \/
               (v = initial_locals /\ next_seq_idx s = len (sequences s))).
  assert (Hstep : forall v s fl v1 s1,
            P v s -> loop_test num_samples v = true ->
            loop_body num_samples number_of_workers worker_rank v s
              = Returns (fl, v1) s1 ->
            sweep_end v1 = true).
  { intros v s fl v1 s1 HP _ Hb.
    pose proof (loop_body_outcome num_samples number_of_workers worker_rank v s)
      as Ho.
    rewrite Hb in Ho.
    assert (Hflag : sweep_end (wrapped v s) = true).
    { unfold wrapped. simpl. destruct HP as [->|[_ ->]]; [done |].
      by rewrite Z.eqb_refl, orb_true_r. }
    inversion Ho; subst; done. }
  destruct (while_loop_Returns_inv P fuel num_samples number_of_workers
              worker_rank initial_locals self v' self') as [HP Hexit];
    [intros; left; eauto | right; done | done |].
  assert (sweep_end v' = true); [| done].
  destruct Hexit as [Ht|(v0 & s0 & HP0 & Ht0 & Hb0)]; [| by eapply Hstep].
  destruct HP as [Hf|[-> _]]; [done |].
  unfold loop_test in Ht. simpl in Ht. lia.
Qed.

(** X15.  A checkpoint taken before a call brings the source back: whatever
    the call did, and however it ended, restoring the state captured before
    it gives the object as it was at the capture, so the same call made
    again gives the same result.  In the other direction, capturing right
    after a restore gives the cursor entry of the restored state and
    nothing else of it. *)
Theorem checkpoint_replays_the_call (fuel : nat)
  (num_samples number_of_workers worker_rank : Z) self
  (state : gmap string Z) (idx : Z) :
  let captured : gmap string Z := {[ "next_seq_idx"%string := next_seq_idx self ]} in
  let call := next_minibatch fuel num_samples number_of_workers worker_rank in
  get_checkpoint_state self = Returns captured self /\
  restore_from_checkpoint captured (final_self (call self)) = Returns tt self /\
  bind (restore_from_checkpoint captured) (fun _ => call) (final_self (call self))
    = call self /\
  bind (restore_from_checkpoint (<[ "next_seq_idx"%string := idx ]> state))
       (fun _ => get_checkpoint_state) self
    = Returns {[ "next_seq_idx"%string := idx ]} (set_next_seq_idx idx self).
Proof.
  intros captured call.
  assert (Hr : restore_from_checkpoint captured (final_self (call self))
               = Returns tt self).
  { unfold restore_from_checkpoint, bind, captured.
    rewrite lookup_singleton_eq. simpl. unfold assign_next_seq_idx. f_equal.
    pose proof (keeps_frame_next_minibatch fuel num_samples number_of_workers
                  worker_rank self) as Hframe.
    fold (call self) in Hframe. unfold cursor_only in Hframe.
    rewrite Hframe, set_next_seq_idx_twice. apply set_next_seq_idx_same. }
  split; [done |]. split; [done |]. split.
  - unfold bind at 1. by rewrite Hr.
  - unfold bind at 1. unfold restore_from_checkpoint, bind.
    by rewrite lookup_insert_eq.
Qed.

Lemma serve_single (n : Z) (base : source) (sh : list nat) (fuel : nat)
  (requests : list Z) (c : Z) :
  0 < n -> sequences base = seqZ 0 n ->
  (forall i, 0 <= i < n ->
     exists entry label_data,
       data base !! i = Some entry /\ seq_labels entry = Some label_data /\
       seq_features entry <> [] /\ shape label_data = sh) ->
  Forall (fun num => 0 < num /\ (Z.to_nat num <= fuel)%nat) requests ->
  0 <= c <= n ->
  exists bs (c' : Z),
    serve fuel requests 1 0 (set_next_seq_idx c base)
      = Returns bs (set_next_seq_idx c' base) /\
    length bs = length requests /\
    Forall (fun b => 1 <= md_num_sequences (fst b)) bs /\
    0 <= c' <= n.
Proof.
  intros Hn Hseq Hlab Hreq. revert c.
  destruct (uniform_labels_split n base sh Hlab) as [Hdata Hshape].
  induction Hreq as [|num requests [Hnum Hfuel] _ IH]; intros c Hc.
  - exists [], c. split; [done |]. split; [done |]. split; [constructor | done].
  - destruct (next_minibatch_single n num base Hn Hnum Hseq Hdata sh Hshape
                fuel c Hc Hfuel)
      as (b & c1 & k & Hcall & _ & _ & _ & Hc1 & _).
    destruct (IH c1 Hc1) as (bs & c' & Hrest & Hlen & Hall & Hc').
    exists (b :: bs), c'. simpl. unfold bind at 1. rewrite Hcall.
    unfold bind. rewrite Hrest. simpl.
    split; [done |]. split; [by rewrite Hlen |]. split; [| done].
    constructor; [| done].
    by apply (next_minibatch_counted _ _ _ _ _ _ _ Hcall).
Qed.

(** X18.  A source constructed from a text whose identifiers are
    [0 .. n-1], every sequence with a labelled line, the label arrays all of
    one shape [sh], serves one worker without end: whatever positive numbers
    of samples are asked for, call after call, every call returns, each
    batch holds at least one sequence, and the cursor stays within the
    list. *)
Theorem constructed_source_serves_one_worker
  (to_float32 : string -> option float32) (sample_data : string)
  (f_dim' l_dim' n : Z) self (sh : list nat) (fuel : nat) (requests : list Z) :
  __init__ to_float32 sample_data f_dim' l_dim' = inr self ->
  0 < n -> sequences self = seqZ 0 n ->
  (forall seq_id entry,
     data self !! seq_id = Some entry ->
     exists label_data,
       seq_labels entry = Some label_data /\ shape label_data = sh) ->
  Forall (fun num => 0 < num /\ (Z.to_nat num <= fuel)%nat) requests ->
  exists bs self',
    serve fuel requests 1 0 self = Returns bs self' /\
    length bs = length requests /\
    Forall (fun b => 1 <= md_num_sequences (fst b)) bs /\
    0 <= next_seq_idx self' <= n.
Proof.
  intros Hinit Hn Hseq Hlab Hreq.
  assert (Hidx : next_seq_idx self = 0).
  { revert Hinit. unfold __init__. destruct (_prepare_data _ _); [done |].
    by intros [= <-]. }
  assert (Hkeys : forall seq_id,
            seq_id ∈ sequences self <-> is_Some (data self !! seq_id)).
  { revert Hinit. unfold __init__. destruct (_prepare_data _ _) as [|d]; [done |].
    intros [= <-]. simpl. apply sorted_spec. }
  assert (Hdata : forall i, 0 <= i < n ->
            exists entry label_data,
              data self !! i = Some entry /\ seq_labels entry = Some label_data /\
              seq_features entry <> [] /\ shape label_data = sh).
  { intros i Hi.
    destruct (proj1 (Hkeys i)) as [entry He].
    { rewrite Hseq. apply elem_of_seqZ. lia. }
    destruct (Hlab i entry He) as (label_data & Hl & Hsh).
    exists entry, label_data. split; [done |]. split; [done |].
    split; [| done].
    by apply (init_ingested to_float32 sample_data f_dim' l_dim' self Hinit i entry He). }
  destruct (serve_single n self sh fuel requests 0 Hn Hseq Hdata Hreq)
    as (bs & c' & Hrun & Hlen & Hall & Hc'); [lia |].
  assert (Hself : set_next_seq_idx 0 self = self)
    by (rewrite <- Hidx; apply set_next_seq_idx_same).
  rewrite Hself in Hrun.
  by exists bs, (set_next_seq_idx c' self).
Qed.

End Service.

(** ** The further properties on the example source *)

Lemma batch_of_several_within_request_witness :
  let b : MinibatchData Z * MinibatchData Z :=
    ({| md_value := Value_one_hot [[560; 0; 0]; [560; 0; 0; 424]] 1000;
        md_num_sequences := 2; md_num_samples := 7; md_sweep_end := false |},
     {| md_value := Value_dense [[[1; 0; 0; 0; 0]]; [[0; 1; 0; 0; 0]]];
        md_num_sequences := 2; md_num_samples := 2; md_sweep_end := false |}) in
  md_num_samples (fst b) <= 7 /\ md_num_samples (snd b) <= 7.
Proof.
  intros b.
  apply (batch_of_several_within_request 2 7 1 0 mbs b (set_next_seq_idx 2 mbs));
    [vm_compute; reflexivity | simpl; lia].
Defined.

Lemma batch_is_filled_witness :
  let b : MinibatchData Z * MinibatchData Z :=
    ({| md_value := Value_one_hot [[560; 0; 0]] 1000;
        md_num_sequences := 1; md_num_samples := 3; md_sweep_end := false |},
     {| md_value := Value_dense [[[1; 0; 0; 0; 0]]];
        md_num_sequences := 1; md_num_samples := 1; md_sweep_end := false |}) in
  let self' := set_next_seq_idx 1 mbs in
  5 <= md_num_samples (fst b) \/
  5 <= md_num_samples (snd b) \/
  exists (i seq_id : Z) (entry : seq_data Z) (label_data : ndarray Z),
    getitem (sequences self') (next_seq_idx self') = Some i /\
    getitem (sequences self') i = Some seq_id /\
    seq_id mod 1 = 0 /\
    data self' !! seq_id = Some entry /\ seq_labels entry = Some label_data /\
    (5 < md_num_samples (fst b) + len (seq_features entry) \/
     5 < md_num_samples (snd b) + len label_data).
Proof.
  intros b self'.
  apply (batch_is_filled 2 5 1 0 mbs b self'). vm_compute; reflexivity.
Defined.

Lemma cursor_after_a_batch_witness :
  next_seq_idx (set_next_seq_idx 2 mbs) = next_seq_idx mbs + 2.
Proof.
  refine (proj1 (cursor_after_a_batch (float32:=Z) 2 7 1 0 mbs
           ({| md_value := Value_one_hot [[560; 0; 0]; [560; 0; 0; 424]] 1000;
               md_num_sequences := 2; md_num_samples := 7; md_sweep_end := false |},
            {| md_value := Value_dense [[[1; 0; 0; 0; 0]]; [[0; 1; 0; 0; 0]]];
               md_num_sequences := 2; md_num_samples := 2; md_sweep_end := false |})
           (set_next_seq_idx 2 mbs) _) _);
    [vm_compute; reflexivity | reflexivity].
Defined.

Lemma next_minibatch_keeps_cursor_in_range_witness :
  cursor_in_range (final_self (next_minibatch 3 20 1 0 (set_next_seq_idx 4 mbs))).
Proof.
  apply next_minibatch_keeps_cursor_in_range.
  unfold cursor_in_range. vm_compute. split; discriminate.
Defined.

Lemma batch_belongs_to_worker_witness :
  exists (ids : list Z) (entries : list (seq_data Z)),
    Forall (fun id => id ∈ sequences mbs /\ 2 <> 0 /\ id mod 2 = 0) ids /\
    Forall2 (fun id entry => data mbs !! id = Some entry) ids entries /\
    [[560; 0; 0]] = seq_features <$> entries /\
    Some <$> [[[1; 0; 0; 0; 0]]] = seq_labels <$> entries.
Proof.
  apply (batch_belongs_to_worker (float32:=Z) 1 3 2 0 mbs
           ({| md_value := Value_one_hot [[560; 0; 0]] 1000;
               md_num_sequences := 1; md_num_samples := 3; md_sweep_end := false |},
            {| md_value := Value_dense [[[1; 0; 0; 0; 0]]];
               md_num_sequences := 1; md_num_samples := 1; md_sweep_end := false |})
           (set_next_seq_idx 1 mbs)).
  vm_compute; reflexivity.
Defined.

Lemma foreign_sequence_blocks_the_call_witness :
  still_running (next_minibatch 9 7 2 1 mbs).
Proof.
  refine (proj2 (foreign_sequence_blocks_the_call 9 7 2 1 initial_locals mbs 0 0
                   _ _ _ _) _);
    [vm_compute; reflexivity | vm_compute; reflexivity | discriminate
    | vm_compute; discriminate | lia].
Defined.


Lemma zero_workers_raises_witness :
  next_minibatch 1 7 0 0 mbs
  = Raises ZeroDivisionError (set_next_seq_idx (examined mbs) mbs).
Proof.
  apply (zero_workers_raises 0 7 0 mbs 0 0);
    [vm_compute; reflexivity | vm_compute; reflexivity | lia].
Defined.

Lemma line_without_separator_aborts_witness :
  __init__ small_int_float32 (lines ["0 |x 1:1 |y 1 0"; "oops"; "1 |x 2:1"]%string) 10 2
  = inl ValueError.
Proof.
  apply (line_without_separator_aborts small_int_float32 _ 10 2
           ["0 |x 1:1 |y 1 0"%string] "oops"%string ["1 |x 2:1"%string; ""%string]
           [(0, 1, Some [[1; 0]])]);
    vm_compute; reflexivity.
Defined.

Lemma blank_text_gives_empty_index_witness :
  exists self,
    __init__ small_int_float32 (lines [""; "   "]%string) 10 2 = inr self /\
    data self = ∅ /\ sequences self = [] /\
    forall (fuel : nat) (num_samples number_of_workers worker_rank : Z),
      0 < num_samples ->
      next_minibatch (S fuel) num_samples number_of_workers worker_rank self
      = Raises IndexError self.
Proof.
  apply blank_text_gives_empty_index. vm_compute; reflexivity.
Defined.

Lemma init_postconditions_witness :
  next_seq_idx mbs = 0 /\ f_dim mbs = 1000 /\ l_dim mbs = 5 /\
  StronglySorted Z.lt (sequences mbs) /\
  (forall seq_id, seq_id ∈ sequences mbs <-> is_Some (data mbs !! seq_id)) /\
  stream_infos mbs
  = Returns
      [ {| si_name := "features"; si_stream_id := 0;
           si_storage_format := "sparse"; si_dtype := np_float32;
           si_shape := [1000] |};
        {| si_name := "labels"; si_stream_id := 1;
           si_storage_format := "dense"; si_dtype := np_float32;
           si_shape := [5] |} ]
      mbs.
Proof.
  apply (init_postconditions small_int_float32 sample_data 1000 5 mbs).
  vm_compute; reflexivity.
Defined.

Lemma single_worker_call_returns_witness :
  exists b self' (k : nat),
    next_minibatch 7 7 1 0 (set_next_seq_idx 2 mbs) = Returns b self' /\
    (0 < k)%nat /\
    batch_features b
    = features_of (set_next_seq_idx 2 mbs)
        <$> walked 4 (next_seq_idx (set_next_seq_idx 2 mbs)) k /\
    batch_labels b
    = label_array_of (set_next_seq_idx 2 mbs)
        <$> walked 4 (next_seq_idx (set_next_seq_idx 2 mbs)) k /\
    0 <= next_seq_idx self' <= 4 /\
    (md_sweep_end (fst b) = false ->
     next_seq_idx self' = next_seq_idx (set_next_seq_idx 2 mbs) + Z.of_nat k /\
     next_seq_idx (set_next_seq_idx 2 mbs) + Z.of_nat k <= 4) /\
    (md_sweep_end (fst b) = true ->
     4 <= next_seq_idx (set_next_seq_idx 2 mbs) + Z.of_nat k).
Proof.
  apply (single_worker_call_returns 4 7 7 (set_next_seq_idx 2 mbs) [5%nat]);
    [lia | lia | vm_compute; reflexivity | vm_compute; split; discriminate | | lia].
  intros i Hi.
  assert (i = 0 \/ i = 1 \/ i = 2 \/ i = 3) as [->|[->|[->| ->]]] by lia;
    eexists; eexists;
    (split; [vm_compute; reflexivity |
     split; [vm_compute; reflexivity |
     split; [discriminate | vm_compute; reflexivity]]]).
Defined.

Lemma call_from_the_end_flags_the_sweep_witness :
  let b : MinibatchData Z * MinibatchData Z :=
    ({| md_value := Value_one_hot [[560; 0; 0]; [560; 0; 0; 424]] 1000;
        md_num_sequences := 2; md_num_samples := 7; md_sweep_end := true |},
     {| md_value := Value_dense [[[1; 0; 0; 0; 0]]; [[0; 1; 0; 0; 0]]];
        md_num_sequences := 2; md_num_samples := 2; md_sweep_end := true |}) in
  md_sweep_end (fst b) = true /\ md_sweep_end (snd b) = true.
Proof.
  intros b.
  apply (call_from_the_end_flags_the_sweep 2 7 1 0 (set_next_seq_idx 4 mbs) b
           (set_next_seq_idx 2 mbs));
    [vm_compute; reflexivity | lia | vm_compute; reflexivity].
Defined.

Lemma uneven_labels_raise_witness :
  next_minibatch 2 2 1 0 uneven_labels
  = Raises ValueError (set_next_seq_idx 2 uneven_labels).
Proof.
  apply (uneven_labels_raise 2 2 1 0 uneven_labels
           {| features := [[1]; [2]]; labels := [[[1; 0]]; [[1; 0; 0]]];
              sweep_end := false; f_sample_count := 2; l_sample_count := 2 |}
           (set_next_seq_idx 2 uneven_labels) [[1; 0]] [[1; 0; 0]]);
    [vm_compute; reflexivity | | | discriminate].
  - apply elem_of_cons. by left.
  - apply elem_of_cons. right. apply elem_of_cons. by left.
Defined.

Lemma returned_labels_share_a_shape_witness :
  let b : MinibatchData Z * MinibatchData Z :=
    ({| md_value := Value_one_hot [[560; 0; 0]; [560; 0; 0; 424]] 1000;
        md_num_sequences := 2; md_num_samples := 7; md_sweep_end := false |},
     {| md_value := Value_dense [[[1; 0; 0; 0; 0]]; [[0; 1; 0; 0; 0]]];
        md_num_sequences := 2; md_num_samples := 2; md_sweep_end := false |}) in
  (exists v,
     _prepare_nextbatch 2 7 1 0 mbs = Returns v (set_next_seq_idx 2 mbs) /\
     batch_labels b = labels v) /\
  forall a c, a ∈ batch_labels b -> c ∈ batch_labels b -> shape a = shape c.
Proof.
  intros b.
  apply (returned_labels_share_a_shape 2 7 1 0 mbs b (set_next_seq_idx 2 mbs)).
  vm_compute; reflexivity.
Defined.

(** * The generator [frange] *)

Lemma steps_below_done (start stop step : Z) :
  0 < step -> stop <= start -> steps_below start stop step = 0.
Proof.
  intros Hstep Hle. unfold steps_below.
  assert ((stop - start + step - 1) / step < 1) as Hq
    by (apply Z.div_lt_upper_bound; lia).
  revert Hq. generalize ((stop - start + step - 1) / step). intros q Hq. lia.
Qed.

Lemma steps_below_next (start stop step : Z) :
  0 < step -> start < stop ->
  steps_below start stop step = 1 + steps_below (start + step) stop step /\
  0 <= steps_below (start + step) stop step.
Proof.
  intros Hstep Hlt. unfold steps_below.
  replace (stop - start + step - 1)
    with ((stop - (start + step) + step - 1) + 1 * step) by lia.
  rewrite Z.div_add by lia.
  assert (0 <= (stop - (start + step) + step - 1) / step) as Hq.
  { apply Z.div_pos; lia. }
  revert Hq. generalize ((stop - (start + step) + step - 1) / step).
  intros q Hq. lia.
Qed.

Lemma frange_positive_step (fuel : nat) (start stop step : Z) :
  0 < step -> (Z.to_nat (steps_below start stop step) <= fuel)%nat ->
  frange fuel start stop step
  = ((fun k => start + k * step) <$> seqZ 0 (steps_below start stop step), true).
Proof.
  intros Hstep. revert start. induction fuel as [|fuel IH]; intros start Hfuel.
  - destruct (start <? stop) eqn:Hlt.
    + destruct (steps_below_next start stop step) as [Heq Hge]; lia.
    + simpl. rewrite Hlt. rewrite steps_below_done by lia. done.
  - simpl. destruct (start <? stop) eqn:Hlt.
    + destruct (steps_below_next start stop step) as [Heq Hge]; [lia | lia |].
      rewrite IH by lia. simpl. rewrite Heq.
      rewrite (seqZ_cons 0 (1 + steps_below (start + step) stop step)) by lia.
      simpl.
      replace (Z.pred (1 + steps_below (start + step) stop step))
        with (steps_below (start + step) stop step) by lia.
      f_equal. f_equal; [lia |].
      replace (seqZ (Z.succ 0) (steps_below (start + step) stop step))
        with (Z.add 1 <$> seqZ 0 (steps_below (start + step) stop step))
        by (by rewrite fmap_add_seqZ).
      rewrite <- list_fmap_compose. apply list_fmap_ext. intros i k _. simpl. lia.
    + rewrite steps_below_done by lia. done.
Qed.

(** X16.  Called with integers and a positive step, [frange] yields the
    values [start], [start + step], ... below [stop], as many as there are,
    and then ends; it yields nothing when [start] is not below [stop].
    With step 1 these are the values of [range(start, stop)]. *)
Theorem frange_yields_the_progression (fuel : nat) (start stop step : Z) :
  0 < step -> (Z.to_nat (steps_below start stop step) <= fuel)%nat ->
  frange fuel start stop step
  = ((fun k => start + k * step) <$> seqZ 0 (steps_below start stop step), true) /\
  Forall (fun x => start <= x < stop) (frange fuel start stop step).1 /\
  (stop <= start -> (frange fuel start stop step).1 = []) /\
  (step = 1 -> (frange fuel start stop step).1 = seqZ start (stop - start)).
Proof.
  intros Hstep Hfuel. rewrite frange_positive_step by done. simpl.
  split; [done |]. split; [| split].
  - apply Forall_fmap, Forall_seqZ. intros k Hk. simpl.
    unfold steps_below in Hk.
    assert (k < (stop - start + step - 1) / step) as Hlt by lia.
    assert (step * (k + 1) <= stop - start + step - 1).
    { transitivity (step * ((stop - start + step - 1) / step));
        [| apply Z.mul_div_le; lia]. apply Z.mul_le_mono_nonneg_l; lia. }
    nia.
  - intros Hle. by rewrite steps_below_done.
  - intros ->. unfold steps_below.
    replace (stop - start + 1 - 1) with (stop - start) by lia.
    rewrite Z.div_1_r.
    destruct (decide (stop - start <= 0)).
    + rewrite Z.max_l by lia. by rewrite !seqZ_nil by lia.
    + rewrite Z.max_r by lia.
      replace (seqZ start (stop - start))
        with (Z.add start <$> seqZ 0 (stop - start))
        by (rewrite fmap_add_seqZ; f_equal; lia).
      apply list_fmap_ext. intros i k _. lia.
Qed.

(** X17.  Called with integers, [start] below [stop] and a step that is
    zero or negative, [frange] never ends: after any number of rounds it
    has yielded one value per round, [start], [start + step], ..., and its
    loop test still holds. *)
Theorem frange_never_ends_without_progress (fuel : nat) (start stop step : Z) :
  step <= 0 -> start < stop ->
  frange fuel start stop step
  = ((fun k => start + k * step) <$> seqZ 0 (Z.of_nat fuel), false).
Proof.
  intros Hstep. revert start. induction fuel as [|fuel IH]; intros start Hlt.
  - simpl. destruct (start <? stop) eqn:E; [done | lia].
  - cbn [frange]. destruct (start <? stop) eqn:E; [| lia].
    rewrite IH by lia. cbn [fst snd]. f_equal.
    rewrite (seqZ_cons 0 (Z.of_nat (S fuel))) by lia. rewrite fmap_cons.
    f_equal; [lia |].
    replace (Z.pred (Z.of_nat (S fuel))) with (Z.of_nat fuel) by lia.
    replace (seqZ (Z.succ 0) (Z.of_nat fuel))
      with (Z.add 1 <$> seqZ 0 (Z.of_nat fuel)) by (by rewrite fmap_add_seqZ).
    rewrite <- list_fmap_compose. apply list_fmap_ext. intros i k _. simpl. lia.
Qed.

Lemma frange_yields_the_progression_witness :
  frange 5 1 10 3 = ([1; 4; 7], true).
Proof.
  refine (proj1 (frange_yields_the_progression 5 1 10 3 _ _));
    [lia | vm_compute; lia].
Defined.

Lemma frange_never_ends_without_progress_witness :
  frange 3 0 1 0 = ([0; 0; 0], false).
Proof. apply (frange_never_ends_without_progress 3 0 1 0); lia. Defined.

Lemma constructed_source_serves_one_worker_witness :
  exists bs self',
    serve 20 [7; 7; 20; 1] 1 0 mbs = Returns bs self' /\
    length bs = length [7; 7; 20; 1] /\
    Forall (fun b => 1 <= md_num_sequences (fst b)) bs /\
    0 <= next_seq_idx self' <= 4.
Proof.
  apply (constructed_source_serves_one_worker small_int_float32 sample_data
           1000 5 4 mbs [5%nat] 20 [7; 7; 20; 1]);
    [vm_compute; reflexivity | lia | vm_compute; reflexivity | |
     repeat constructor; lia].
  apply (map_Forall_to_list (fun (_ : Z) (entry : seq_data Z) =>
                               exists label_data,
                                 seq_labels entry = Some label_data /\
                                 shape label_data = [5%nat])).
  assert (Hl : map_to_list (data mbs)
               = [(3, {| seq_features := [460; 3; 3; 425];
                         seq_labels := Some [[0; 0; 0; 1; 0]] |});
                  (2, {| seq_features := [160; 5; 6];
                         seq_labels := Some [[0; 0; 1; 0; 0]] |});
                  (1, {| seq_features := [560; 0; 0; 424];
                         seq_labels := Some [[0; 1; 0; 0; 0]] |});
                  (0, {| seq_features := [560; 0; 0];
                         seq_labels := Some [[1; 0; 0; 0; 0]] |})])
    by (vm_compute; reflexivity).
  rewrite Hl.
  repeat (constructor; [simpl; eexists; split; reflexivity |]). constructor.
Defined.
